(** * gcTraceTime.cpp: the GC pause timer and the CPU-time sampler

    A shallow embedding of [src/hotspot/share/gc/shared/gcTraceTime.cpp]:
    [GCTraceTimeLoggerImpl::log_start], [GCTraceTimeLoggerImpl::log_end],
    the constructor and the destructor of [GCTraceCPUTime].

    The code talks to the heap, the kernel (syscalls 452 and 455), [malloc],
    the OS clock, the tracer and the log sink.  Every such call is an
    [event] carrying what the call returned; a program is a function from
    the history of events so far to its result and the events it adds.
    The answers come from a [World], any function of the history, so a
    statement about all worlds covers every way the calls can succeed or
    fail.  A [double] is a binary64 float of the kernel and its printing
    is exact. *)

From Stdlib Require Import ZArith List String Ascii Bool Floats.
From Stdlib Require Import DecimalString Lia.
Import ListNotations.

Local Open Scope string_scope.
Local Open Scope Z_scope.

(** ** Machine integers (LP64) *)

(** [size_t] and [unsigned long] are 64 bits wide, [unsigned int] 32 bits,
    [jlong] is a signed 64-bit integer.  A value is a [Z]; a conversion to
    the type reduces it. *)
Definition SIZE_MAX : Z := 2 ^ 64 - 1.

Definition size_t (z : Z) : Z := z mod 2 ^ 64.

Definition unsigned_int (z : Z) : Z := z mod 2 ^ 32.

Definition jlong (z : Z) : Z := (z + 2 ^ 63) mod 2 ^ 64 - 2 ^ 63.

(** [const size_t K = 1024; const size_t M = K*K;] of globalDefinitions.hpp. *)
Definition K : Z := 1024.

Definition M : Z := K * K.

(** ** printf conversions *)

(** [SIZE_FORMAT]: an unsigned decimal number. *)
Definition SIZE_FORMAT (z : Z) : string :=
  NilZero.string_of_uint (N.to_uint (Z.to_N (size_t z))).

Definition digit_char (d : Z) : ascii :=
  ascii_of_nat (48 + Z.to_nat (d mod 10)).

(** The [n] low decimal digits of [q], most significant first. *)
Fixpoint low_digits (n : nat) (q : Z) : string :=
  match n with
  | O => ""
  | S k => low_digits k (q / 10) ++ String (digit_char q) ""
  end.

(** [num / den] rounded to the nearest integer, ties to the even one. *)
Definition round_half_even (num den : Z) : Z :=
  let q := num / den in
  let r := num mod den in
  if 2 * r <? den then q
  else if den <? 2 * r then q + 1
  else if Z.even q then q else q + 1.

(** [m * 2^e * 10^prec] rounded to an integer. *)
Definition scale_decimal (prec : nat) (m : positive) (e : Z) : Z :=
  let num := Z.pos m * 10 ^ Z.of_nat prec in
  if 0 <=? e then num * 2 ^ e else round_half_even num (2 ^ (- e)).

Definition fixed_point (prec : nat) (neg : bool) (q : Z) : string :=
  (if neg then "-" else "")
  ++ NilZero.string_of_uint (N.to_uint (Z.to_N (q / 10 ^ Z.of_nat prec)))
  ++ match prec with O => "" | S _ => "." ++ low_digits prec q end.

Fixpoint spaces (n : nat) : string :=
  match n with
  | O => ""
  | S k => String " " (spaces k)
  end.

(** ["%<width>.<prec>f"] of a [double]: the exact binary value rounded to
    [prec] decimals, padded on the left to [width] characters. *)
Definition printf_f (width prec : nat) (d : float) : string :=
  let s :=
    match Prim2SF d with
    | S754_zero neg => fixed_point prec neg 0
    | S754_infinity neg => if neg then "-inf" else "inf"
    | S754_nan => "nan"
    | S754_finite neg m e => fixed_point prec neg (scale_decimal prec m e)
    end in
  spaces (width - String.length s) ++ s.

Definition is_finite (d : float) : bool :=
  match Prim2SF d with
  | S754_zero _ | S754_finite _ _ _ => true
  | S754_infinity _ | S754_nan => false
  end.

Definition is_digit (c : ascii) : bool :=
  let n := nat_of_ascii c in
  (48 <=? n)%nat && (n <=? 57)%nat.

Fixpoint all_digits (s : string) : bool :=
  match s with
  | EmptyString => true
  | String c t => is_digit c && all_digits t
  end.

(** [strstr(haystack, needle) != nullptr]. *)
Fixpoint strstr (haystack needle : string) : bool :=
  String.prefix needle haystack
  || match haystack with
     | EmptyString => false
     | String _ t => strstr t needle
     end.

(** ** Events and the world *)

(** [struct swap_stats], the out-parameter of syscall 452. *)
Record swap_stats := {
  majflt : Z;
  majflt_in_region : Z
}.

(** The address of a [GCTracer] object. *)
Definition GCTracer : Type := nat.

Inductive log_target : Type :=
| out_start          (* [_out_start] of the timer *)
| out_end            (* [_out_end] of the timer *)
| info_gc_cpu        (* [log_info(gc, cpu)] *)
| warning_gc_cpu.    (* [log_warning(gc, cpu)] *)

(** One call across the boundary of the file, with its result:
    - [EvLog]: a line handed to a log target;
    - [EvHeapUsed], [EvHeapCapacity]: [Universe::heap()->used()] and
      [heap->capacity()];
    - [EvSwapStats]: [syscall(452, &stats)], with [stats] after the call;
    - [EvMalloc]: [malloc(bytes)], [ok] when the result is not NULL;
    - [EvFree]: [free(indices)];
    - [EvFaultyPageIndex]: [syscall(455, mode, indices, 0)], with the
      buffer after the call when one was passed;
    - [EvLogIsEnabled]: [log_is_enabled(Info, gc, cpu)];
    - [EvGetTimesSecs]: [os::getTimesSecs], with the three variables after
      the call;
    - [EvShouldReport]: [tracer->should_report_cpu_time_event()];
    - [EvReport]: [tracer->report_cpu_time_event(user, system, real)]. *)
Inductive event : Type :=
| EvLog (target : log_target) (line : string)
| EvHeapUsed (bytes : Z)
| EvHeapCapacity (bytes : Z)
| EvSwapStats (ret : Z) (stats : swap_stats)
| EvMalloc (bytes : Z) (ok : bool)
| EvFree
| EvFaultyPageIndex (mode : Z) (indices : option (nat -> Z)) (ret : Z)
| EvLogIsEnabled (enabled : bool)
| EvGetTimesSecs (valid : bool) (real user system : float)
| EvShouldReport (tracer : GCTracer) (interested : bool)
| EvReport (tracer : GCTracer) (user system real : float).

Definition trace := list event.

(** What the collaborators answer, given everything that happened before.
    Out-parameters are part of the answer: the contents of [stats], of the
    index buffer and of the three time variables after the call. *)
Record World := {
  heap_used : trace -> Z;
  heap_capacity : trace -> Z;
  sys_get_swap_stats : trace -> Z * swap_stats;
  malloc : trace -> Z -> bool;
  sys_faulty_page_index : trace -> Z -> bool -> Z * (nat -> Z);
  log_is_enabled_info_gc_cpu : trace -> bool;
  os_getTimesSecs : trace -> bool * (float * float * float);
  tracer_should_report_cpu_time_event : trace -> GCTracer -> bool
}.

(** The parts of the runtime the file uses and does not define: the
    [GCCause::Cause] enumeration with its printer, and
    [TimeHelper::counter_to_millis]. *)
Class Runtime := {
  Cause : Type;
  _no_gc : Cause;
  Cause_eq_dec : forall a b : Cause, {a = b} + {a <> b};
  to_string : Cause -> string;
  counter_to_millis : Z -> float
}.

(** ** Programs *)

(** A program reads the history and returns its result together with the
    events it adds, oldest first. *)
Definition io (A : Type) : Type := trace -> A * trace.

Definition ret {A} (a : A) : io A := fun _ => (a, []).

Definition bind {A B} (m : io A) (k : A -> io B) : io B :=
  fun h =>
    let (a, e1) := m h in
    let (b, e2) := k a (h ++ e1)%list in
    (b, (e1 ++ e2)%list).

(** Ask the world, record the answer. *)
Definition call {X} (answer : trace -> X) (ev : X -> event) : io X :=
  fun h => let x := answer h in (x, [ev x]).

Definition emit (ev : event) : io unit := fun _ => (tt, [ev]).

Declare Scope io_scope.
Delimit Scope io_scope with io.
Notation "x <- m ;; k" := (bind m (fun x => k))
  (at level 100, m at next level, right associativity) : io_scope.
Notation "' p <- m ;; k" := (bind m (fun x => let 'p := x in k))
  (at level 100, p pattern, m at next level, right associativity) : io_scope.
Notation "m ;; k" := (bind m (fun _ => k))
  (at level 100, right associativity) : io_scope.

(** [LogStream]: a line under construction for a log target.  [print]
    adds text to the line; the texts printed here (titles, cause names,
    numbers) hold no line break. *)
Record LogStream := {
  ls_target : log_target;
  ls_line : string
}.

Definition print (out : LogStream) (s : string) : LogStream :=
  {| ls_target := ls_target out; ls_line := ls_line out ++ s |}.

(** The end of the line hands it to the sink and starts a new one. *)
Definition cr (out : LogStream) : io LogStream :=
  (emit (EvLog (ls_target out) (ls_line out)) ;;
   ret {| ls_target := ls_target out; ls_line := "" |})%io.

Definition print_cr (out : LogStream) (s : string) : io LogStream :=
  cr (print out s).

(** ** GCTraceTimeLoggerImpl *)

Module GCTraceTimeLoggerImpl.

Section Timer.

Context {RT : Runtime} (w : World).

(** The members the two functions use.  [_start] is a [Ticks] value (a
    [jlong] counter); [_heap_usage_before] and [_majflt_before] are printed
    with [SIZE_FORMAT] and held as [size_t]. *)
Record t := {
  _title : string;
  _gc_cause : Cause;
  _log_heap_usage : bool;
  _heap_usage_before : Z;
  _majflt_before : Z;
  _start : Z
}.

Definition set_start (self : t) (v : Z) : t :=
  {| _title := _title self; _gc_cause := _gc_cause self;
     _log_heap_usage := _log_heap_usage self;
     _heap_usage_before := _heap_usage_before self;
     _majflt_before := _majflt_before self;
     _start := v |}.

Definition set_heap_usage_before (self : t) (v : Z) : t :=
  {| _title := _title self; _gc_cause := _gc_cause self;
     _log_heap_usage := _log_heap_usage self;
     _heap_usage_before := v;
     _majflt_before := _majflt_before self;
     _start := _start self |}.

Definition set_majflt_before (self : t) (v : Z) : t :=
  {| _title := _title self; _gc_cause := _gc_cause self;
     _log_heap_usage := _log_heap_usage self;
     _heap_usage_before := _heap_usage_before self;
     _majflt_before := v;
     _start := _start self |}.

(** Modelled from the spec: the constructor of [GCTraceTimeLoggerImpl] is
    declared in the header, which is not among the sources.  The spec's
    data model: the title and the cause are set at construction,
    [usage_before] holds the explicit unset sentinel until a start call
    with usage tracking stores a snapshot, and the fault count before holds
    a default ([majflt0] here, whatever it is) until a read succeeds. *)
Definition constructor (title : string) (gc_cause : Cause)
    (log_heap_usage : bool) (majflt0 : Z) : t :=
  {| _title := title; _gc_cause := gc_cause;
     _log_heap_usage := log_heap_usage;
     _heap_usage_before := SIZE_MAX;
     _majflt_before := size_t majflt0;
     _start := 0 |}.

(** The three pieces of the world the timer calls, as programs. *)
Definition Universe_heap_used : io Z :=
  call (fun h => size_t (heap_used w h)) EvHeapUsed.

Definition Universe_heap_capacity : io Z :=
  call (fun h => size_t (heap_capacity w h)) EvHeapCapacity.

(** [syscall(452, &stats)]: the return value and [stats] after the call,
    its two members being [unsigned int]. *)
Definition syscall_452 : io (Z * swap_stats) :=
  call (fun h =>
          let (r, st) := sys_get_swap_stats w h in
          (r, {| majflt := unsigned_int (majflt st);
                 majflt_in_region := unsigned_int (majflt_in_region st) |}))
       (fun x => EvSwapStats (fst x) (snd x)).

(** [syscall(455, mode, indices, 0)]: the return value and, when a buffer
    was passed, its contents after the call. *)
Definition syscall_455 (mode : Z) (buffer : bool) : io (Z * (nat -> Z)) :=
  call (fun h => sys_faulty_page_index w h mode buffer)
       (fun x => EvFaultyPageIndex mode
                   (if buffer then Some (snd x) else None) (fst x)).

(** [GCTraceTimeLoggerImpl::log_start(Ticks start)]. *)
Definition log_start (self : t) (start : Z) : io t :=
  (let self := set_start self start in
   let out := {| ls_target := out_start; ls_line := "" |} in
   let out := print out (_title self) in
   let out :=
     if Cause_eq_dec (_gc_cause self) _no_gc then out
     else print out (" (" ++ to_string (_gc_cause self) ++ ")") in
   out <- cr out ;;
   if _log_heap_usage self then
     used <- Universe_heap_used ;;
     let self := set_heap_usage_before self used in
     r <- syscall_452 ;;
     if fst r =? 0
     then ret (set_majflt_before self (size_t (majflt (snd r))))
     else ret self
   else ret self)%io.

(** The number of entries of the page index buffer. *)
Definition INDICES : nat := 2048.

(** [GCTraceTimeLoggerImpl::log_end(Ticks end)]. *)
Definition log_end (self : t) (end_ : Z) : io unit :=
  (let duration_in_ms := counter_to_millis (jlong (end_ - _start self)) in
   let out := {| ls_target := out_end; ls_line := "" |} in
   let out := print out (_title self) in
   let out :=
     if Cause_eq_dec (_gc_cause self) _no_gc then out
     else print out (" (" ++ to_string (_gc_cause self) ++ ")") in
   out <-
     (if negb (_heap_usage_before self =? SIZE_MAX) then
        let used_before_m := _heap_usage_before self / M in
        used <- Universe_heap_used ;;
        let used_m := used / M in
        capacity <- Universe_heap_capacity ;;
        let capacity_m := capacity / M in
        let majflt0 := size_t (-1) in
        r <- syscall_452 ;;
        let majflt1 :=
          if fst r =? 0 then size_t (majflt (snd r)) else majflt0 in
        ret (print out
               (" " ++ SIZE_FORMAT used_before_m ++ "M->"
                ++ SIZE_FORMAT used_m ++ "M("
                ++ SIZE_FORMAT capacity_m ++ "M) "
                ++ "majflt(" ++ SIZE_FORMAT (_majflt_before self) ++ "->"
                ++ SIZE_FORMAT majflt1 ++ ")"))
      else ret out) ;;
   out <- print_cr out (" " ++ printf_f 0 3 duration_in_ms ++ "ms") ;;
   if _log_heap_usage self && strstr (_title self) "Pause Full" then
     indices <- call (fun h => malloc w h (Z.of_nat INDICES * 8))
                     (EvMalloc (Z.of_nat INDICES * 8)) ;;
     (if indices then
        r <- syscall_455 3 true ;;
        (if fst r =? 0 then
           let out := print out "faulty page index: " in
           let out :=
             fold_left
               (fun out i => print out (SIZE_FORMAT (snd r i) ++ ","))
               (seq 0 INDICES) out in
           out <- cr out ;;
           ret tt
         else ret tt) ;;
        emit EvFree
      else ret tt) ;;
     (* reset profile *)
     _ <- syscall_455 2 false ;;
     ret tt
   else ret tt)%io.

End Timer.

End GCTraceTimeLoggerImpl.

(** ** GCTraceCPUTime *)

Module GCTraceCPUTime.

Section Sampler.

Context (w : World).

Record t := {
  _active : bool;
  _starting_user_time : float;
  _starting_system_time : float;
  _starting_real_time : float;
  _tracer : option GCTracer
}.

Definition invalid_result : string :=
  "TraceCPUTime: os::getTimesSecs() returned invalid result".

(** [os::getTimesSecs(&real, &user, &system)]: the return value and the
    three variables after the call. *)
Definition getTimesSecs : io (bool * (float * float * float)) :=
  call (os_getTimesSecs w)
       (fun x => let '(valid, (real, user, system)) := x in
                 EvGetTimesSecs valid real user system).

(** [GCTraceCPUTime::GCTraceCPUTime(GCTracer* tracer)].  [||] and [&&]
    evaluate their right operand only when the left one does not decide.
    The three starting times hold what [os::getTimesSecs] left in them,
    valid or not. *)
Definition constructor (tracer : option GCTracer) : io t :=
  (enabled <- call (log_is_enabled_info_gc_cpu w) EvLogIsEnabled ;;
   active <-
     (if enabled then ret true
      else match tracer with
           | None => ret false
           | Some tr =>
               call (fun h => tracer_should_report_cpu_time_event w h tr)
                    (EvShouldReport tr)
           end) ;;
   let self := {| _active := active;
                  _starting_user_time := 0;
                  _starting_system_time := 0;
                  _starting_real_time := 0;
                  _tracer := tracer |} in
   if _active self then
     r <- getTimesSecs ;;
     let '(valid, (real, user, system)) := r in
     let self := {| _active := _active self;
                    _starting_user_time := user;
                    _starting_system_time := system;
                    _starting_real_time := real;
                    _tracer := _tracer self |} in
     if negb valid then
       emit (EvLog warning_gc_cpu invalid_result) ;;
       ret {| _active := false;
              _starting_user_time := _starting_user_time self;
              _starting_system_time := _starting_system_time self;
              _starting_real_time := _starting_real_time self;
              _tracer := _tracer self |}
     else ret self
   else ret self)%io.

(** [GCTraceCPUTime::~GCTraceCPUTime()]. *)
Definition destructor (self : t) : io unit :=
  (if _active self then
     r <- getTimesSecs ;;
     let '(valid, (real_time, user_time, system_time)) := r in
     if valid then
       let user_time := (user_time - _starting_user_time self)%float in
       let system_time := (system_time - _starting_system_time self)%float in
       let real_time := (real_time - _starting_real_time self)%float in
       emit (EvLog info_gc_cpu
               ("User=" ++ printf_f 3 2 user_time
                ++ "s Sys=" ++ printf_f 3 2 system_time
                ++ "s Real=" ++ printf_f 3 2 real_time ++ "s")) ;;
       match _tracer self with
       | Some tr => emit (EvReport tr user_time system_time real_time)
       | None => ret tt
       end
     else emit (EvLog warning_gc_cpu invalid_result)
   else ret tt)%io.

End Sampler.

End GCTraceCPUTime.

(** ** Reading a trace *)

Definition is_log (target : log_target) (ev : event) : bool :=
  match ev, target with
  | EvLog out_start _, out_start
  | EvLog out_end _, out_end
  | EvLog info_gc_cpu _, info_gc_cpu
  | EvLog warning_gc_cpu _, warning_gc_cpu => true
  | _, _ => false
  end.

Definition is_heap_used (ev : event) : bool :=
  match ev with EvHeapUsed _ => true | _ => false end.

Definition is_swap_stats (ev : event) : bool :=
  match ev with EvSwapStats _ _ => true | _ => false end.

(** A call of syscall 455 in the given mode: 3 asks for the table, 2 resets
    the profile. *)
Definition is_faulty_page_index (mode : Z) (ev : event) : bool :=
  match ev with EvFaultyPageIndex m _ _ => m =? mode | _ => false end.

Definition is_syscall_455 (ev : event) : bool :=
  match ev with EvFaultyPageIndex _ _ _ => true | _ => false end.

Definition is_get_times (ev : event) : bool :=
  match ev with EvGetTimesSecs _ _ _ _ => true | _ => false end.

Definition is_should_report (ev : event) : bool :=
  match ev with EvShouldReport _ _ => true | _ => false end.

Definition count (p : event -> bool) (evs : trace) : nat :=
  List.length (filter p evs).

(** The pieces of the line [log_end] writes. *)
Section Line.

Context {RT : Runtime}.

Definition cause_suffix (c : Cause) : string :=
  if Cause_eq_dec c _no_gc then "" else " (" ++ to_string c ++ ")".

Definition heap_segment (before used capacity : Z) : string :=
  " " ++ SIZE_FORMAT (before / M) ++ "M->" ++ SIZE_FORMAT (used / M)
  ++ "M(" ++ SIZE_FORMAT (capacity / M) ++ "M) ".

Definition majflt_segment (flt_before flt_after : Z) : string :=
  "majflt(" ++ SIZE_FORMAT flt_before ++ "->" ++ SIZE_FORMAT flt_after ++ ")".

Definition usage_segment (before used capacity flt_before flt_after : Z)
    : string :=
  heap_segment before used capacity ++ majflt_segment flt_before flt_after.

(** The duration as [log_end] computes it from the two [Ticks] values. *)
Definition duration_in_ms (start end_ : Z) : float :=
  counter_to_millis (jlong (end_ - start)).

Definition duration_suffix (start end_ : Z) : string :=
  " " ++ printf_f 0 3 (duration_in_ms start end_) ++ "ms".

End Line.

Fixpoint flatten (l : list string) : string :=
  match l with
  | [] => ""
  | s :: t => s ++ flatten t
  end.

(** The entries [indices[from]], ..., [indices[from + n - 1]], a comma
    after each. *)
Definition index_entries (indices : nat -> Z) (from n : nat) : list string :=
  map (fun i => SIZE_FORMAT (indices i) ++ ",") (seq from n).

(** The table line. *)
Definition index_line (indices : nat -> Z) : string :=
  "faulty page index: " ++ flatten (index_entries indices 0 2048).

Arguments index_entries : simpl never.
Arguments index_line : simpl never.

(** ** A runtime and worlds to run the code on *)

Module Demo.

Inductive cause : Type := no_gc | allocation_failure | system_gc.

Definition cause_eq_dec (a b : cause) : {a = b} + {a <> b}.
Proof. decide equality. Defined.

Definition float_of_Z (z : Z) : float :=
  if z <? 0 then (- PrimFloat.of_uint63 (Uint63.of_Z (- z)))%float
  else PrimFloat.of_uint63 (Uint63.of_Z z).

(** Nanosecond ticks: [counter / 1e9 * 1000.0]. *)
#[global] Instance runtime : Runtime := {|
  Cause := cause;
  _no_gc := no_gc;
  Cause_eq_dec := cause_eq_dec;
  to_string := fun c =>
    match c with
    | no_gc => "No GC"
    | allocation_failure => "Allocation Failure"
    | system_gc => "System.gc()"
    end;
  counter_to_millis := fun c => (float_of_Z c / 1000000000 * 1000)%float
|}.

(** A world where every call succeeds: the heap shrinks from 100M to 60M of
    512M, the fault counter reads 10 and then 12, the table holds
    [0, 1, 2, ...], the clock advances by (1.5, 0.25, 0.125) seconds per
    read. *)
Definition calm : World := {|
  heap_used := fun h =>
    match count is_heap_used h with
    | O => 100 * M
    | _ => 60 * M
    end;
  heap_capacity := fun _ => 512 * M;
  sys_get_swap_stats := fun h =>
    (0, {| majflt := 10 + 2 * Z.of_nat (count is_swap_stats h);
           majflt_in_region := 0 |});
  malloc := fun _ _ => true;
  sys_faulty_page_index := fun _ _ _ => (0, Z.of_nat);
  log_is_enabled_info_gc_cpu := fun _ => false;
  os_getTimesSecs := fun h =>
    let n := float_of_Z (Z.of_nat (count is_get_times h)) in
    (true, (1.5 * n, 0.25 * n, 0.125 * n)%float);
  tracer_should_report_cpu_time_event := fun _ _ => true
|}.

(** Variations of a world. *)
Definition with_swap_stats (f : trace -> Z * swap_stats) (w : World) : World :=
  {| heap_used := heap_used w; heap_capacity := heap_capacity w;
     sys_get_swap_stats := f;
     malloc := malloc w;
     sys_faulty_page_index := sys_faulty_page_index w;
     log_is_enabled_info_gc_cpu := log_is_enabled_info_gc_cpu w;
     os_getTimesSecs := os_getTimesSecs w;
     tracer_should_report_cpu_time_event :=
       tracer_should_report_cpu_time_event w |}.

Definition with_heap_used (f : trace -> Z) (w : World) : World :=
  {| heap_used := f; heap_capacity := heap_capacity w;
     sys_get_swap_stats := sys_get_swap_stats w;
     malloc := malloc w;
     sys_faulty_page_index := sys_faulty_page_index w;
     log_is_enabled_info_gc_cpu := log_is_enabled_info_gc_cpu w;
     os_getTimesSecs := os_getTimesSecs w;
     tracer_should_report_cpu_time_event :=
       tracer_should_report_cpu_time_event w |}.

Definition with_malloc (f : trace -> Z -> bool) (w : World) : World :=
  {| heap_used := heap_used w; heap_capacity := heap_capacity w;
     sys_get_swap_stats := sys_get_swap_stats w;
     malloc := f;
     sys_faulty_page_index := sys_faulty_page_index w;
     log_is_enabled_info_gc_cpu := log_is_enabled_info_gc_cpu w;
     os_getTimesSecs := os_getTimesSecs w;
     tracer_should_report_cpu_time_event :=
       tracer_should_report_cpu_time_event w |}.

Definition with_faulty_page_index
    (f : trace -> Z -> bool -> Z * (nat -> Z)) (w : World) : World :=
  {| heap_used := heap_used w; heap_capacity := heap_capacity w;
     sys_get_swap_stats := sys_get_swap_stats w;
     malloc := malloc w;
     sys_faulty_page_index := f;
     log_is_enabled_info_gc_cpu := log_is_enabled_info_gc_cpu w;
     os_getTimesSecs := os_getTimesSecs w;
     tracer_should_report_cpu_time_event :=
       tracer_should_report_cpu_time_event w |}.

Definition with_log_cpu (f : trace -> bool) (w : World) : World :=
  {| heap_used := heap_used w; heap_capacity := heap_capacity w;
     sys_get_swap_stats := sys_get_swap_stats w;
     malloc := malloc w;
     sys_faulty_page_index := sys_faulty_page_index w;
     log_is_enabled_info_gc_cpu := f;
     os_getTimesSecs := os_getTimesSecs w;
     tracer_should_report_cpu_time_event :=
       tracer_should_report_cpu_time_event w |}.

Definition with_times
    (f : trace -> bool * (float * float * float)) (w : World) : World :=
  {| heap_used := heap_used w; heap_capacity := heap_capacity w;
     sys_get_swap_stats := sys_get_swap_stats w;
     malloc := malloc w;
     sys_faulty_page_index := sys_faulty_page_index w;
     log_is_enabled_info_gc_cpu := log_is_enabled_info_gc_cpu w;
     os_getTimesSecs := f;
     tracer_should_report_cpu_time_event :=
       tracer_should_report_cpu_time_event w |}.

(** The fault counter cannot be read. *)
Definition no_swap_stats : World :=
  with_swap_stats
    (fun _ => (-1, {| majflt := 7; majflt_in_region := 7 |})) calm.

(** No memory for the index buffer. *)
Definition no_memory : World := with_malloc (fun _ _ => false) calm.

(** The heap reports [SIZE_MAX] bytes in use. *)
Definition full_heap : World := with_heap_used (fun _ => SIZE_MAX) calm.

(** Both: [SIZE_MAX] bytes in use and no memory for the buffer. *)
Definition full_heap_no_memory : World :=
  with_malloc (fun _ _ => false) full_heap.

(** The table query fails, the reset works. *)
Definition no_table : World :=
  with_faulty_page_index
    (fun _ mode _ => if mode =? 3 then (-1, fun _ => 0) else (0, fun _ => 0))
    calm.

(** The clock cannot be read. *)
Definition no_clock : World :=
  with_times (fun _ => (false, (0, 0, 0)%float)) calm.

(** CPU-time logging is on. *)
Definition logging_cpu : World := with_log_cpu (fun _ => true) calm.

(** One event from start to end: the events of [log_start] and those of
    [log_end], nothing happening in between. *)
Definition run_event (w : World) (self : GCTraceTimeLoggerImpl.t)
    (start end_ : Z) : trace * trace :=
  let (self1, ev1) := GCTraceTimeLoggerImpl.log_start w self start [] in
  let (_, ev2) := GCTraceTimeLoggerImpl.log_end w self1 end_ ev1 in
  (ev1, ev2).

(** One sampler from construction to destruction. *)
Definition run_sampler (w : World) (tracer : option GCTracer)
    : trace * trace :=
  let (self, ev1) := GCTraceCPUTime.constructor w tracer [] in
  let (_, ev2) := GCTraceCPUTime.destructor w self ev1 in
  (ev1, ev2).

Definition pause_young : GCTraceTimeLoggerImpl.t :=
  GCTraceTimeLoggerImpl.constructor "Pause Young" no_gc true 0.

Definition pause_full : GCTraceTimeLoggerImpl.t :=
  GCTraceTimeLoggerImpl.constructor "Pause Full" system_gc true 0.

(** [pause_full] after [log_start] at tick 1000 in the world [w]. *)
Definition started (w : World) : GCTraceTimeLoggerImpl.t :=
  fst (GCTraceTimeLoggerImpl.log_start w pause_full 1000 []).

Definition pause_quiet : GCTraceTimeLoggerImpl.t :=
  GCTraceTimeLoggerImpl.constructor "Pause Full" allocation_failure false 0.

(** The tracer declines CPU-time events. *)
Definition declining : World :=
  {| heap_used := heap_used calm; heap_capacity := heap_capacity calm;
     sys_get_swap_stats := sys_get_swap_stats calm;
     malloc := malloc calm;
     sys_faulty_page_index := sys_faulty_page_index calm;
     log_is_enabled_info_gc_cpu := log_is_enabled_info_gc_cpu calm;
     os_getTimesSecs := os_getTimesSecs calm;
     tracer_should_report_cpu_time_event := fun _ _ => false |}.

(** The clock can be read once and then no more. *)
Definition clock_fails_later : World :=
  with_times
    (fun h =>
       match count is_get_times h with
       | O => (true, (0, 0, 0)%float)
       | _ => (false, (0, 0, 0)%float)
       end)
    calm.

(** A title with the marker in the middle, and one without it. *)
Definition pause_full_inside : GCTraceTimeLoggerImpl.t :=
  GCTraceTimeLoggerImpl.constructor "Concurrent Pause Full cleanup"
    no_gc true 0.

Definition pause_young_started : GCTraceTimeLoggerImpl.t :=
  fst (GCTraceTimeLoggerImpl.log_start calm pause_young 1000 []).


End Demo.

(** ** What a run of the timer looks like *)

Section Runs.

Context {RT : Runtime}.

Import GCTraceTimeLoggerImpl.

Definition heading (self : t) : string :=
  _title self ++ cause_suffix (_gc_cause self).

(** A fault counter as syscall 452 delivers it. *)
Definition counter_range (st : swap_stats) : Prop :=
  0 <= majflt st < 2 ^ 32.

(** The calls of [log_start] after its line, and the object they leave. *)
Inductive start_run (self : t) (start : Z) : t -> trace -> Prop :=
| start_plain :
    _log_heap_usage self = false ->
    start_run self start (set_start self start) []
| start_read used st :
    _log_heap_usage self = true ->
    0 <= used <= SIZE_MAX ->
    counter_range st ->
    start_run self start
      (set_majflt_before
         (set_heap_usage_before (set_start self start) used) (majflt st))
      [EvHeapUsed used; EvSwapStats 0 st]
| start_read_failed used r st :
    _log_heap_usage self = true ->
    0 <= used <= SIZE_MAX ->
    counter_range st ->
    r <> 0 ->
    start_run self start
      (set_heap_usage_before (set_start self start) used)
      [EvHeapUsed used; EvSwapStats r st].

(** The calls of [log_end] before its line, and the segment they add. *)
Inductive usage_run (self : t) : trace -> string -> Prop :=
| usage_unset :
    _heap_usage_before self = SIZE_MAX ->
    usage_run self [] ""
| usage_read used capacity st :
    _heap_usage_before self <> SIZE_MAX ->
    counter_range st ->
    usage_run self
      [EvHeapUsed used; EvHeapCapacity capacity; EvSwapStats 0 st]
      (usage_segment (_heap_usage_before self) used capacity
         (_majflt_before self) (majflt st))
| usage_read_failed used capacity r st :
    _heap_usage_before self <> SIZE_MAX ->
    counter_range st ->
    r <> 0 ->
    usage_run self
      [EvHeapUsed used; EvHeapCapacity capacity; EvSwapStats r st]
      (usage_segment (_heap_usage_before self) used capacity
         (_majflt_before self) SIZE_MAX).

Definition full_pause (self : t) : bool :=
  _log_heap_usage self && strstr (_title self) "Pause Full".

(** The calls of [log_end] after its line. *)
Inductive diagnostic_run (self : t) : trace -> Prop :=
| diagnostic_off :
    full_pause self = false ->
    diagnostic_run self []
| diagnostic_no_memory r :
    full_pause self = true ->
    diagnostic_run self
      [EvMalloc 16384 false; EvFaultyPageIndex 2 None r]
| diagnostic_query_failed indices q r :
    full_pause self = true ->
    q <> 0 ->
    diagnostic_run self
      [EvMalloc 16384 true; EvFaultyPageIndex 3 (Some indices) q;
       EvFree; EvFaultyPageIndex 2 None r]
| diagnostic_table indices r :
    full_pause self = true ->
    diagnostic_run self
      [EvMalloc 16384 true; EvFaultyPageIndex 3 (Some indices) 0;
       EvLog out_end (index_line indices);
       EvFree; EvFaultyPageIndex 2 None r].

(** The three ways the diagnostic block can go. *)
Definition diagnostic_cases (diag : trace) : Prop :=
  (exists r, diag = [EvMalloc 16384 false; EvFaultyPageIndex 2 None r])
  \/ (exists indices q r,
        q <> 0
        /\ diag = [EvMalloc 16384 true; EvFaultyPageIndex 3 (Some indices) q;
                   EvFree; EvFaultyPageIndex 2 None r])
  \/ (exists indices r,
        diag = [EvMalloc 16384 true; EvFaultyPageIndex 3 (Some indices) 0;
                EvLog out_end (index_line indices);
                EvFree; EvFaultyPageIndex 2 None r]).

End Runs.

(** ** What a run of the sampler looks like *)

Section SamplerRuns.

Import GCTraceCPUTime.

(** The line of the destructor, for three deltas. *)
Definition cpu_time_line (user system real : float) : string :=
  "User=" ++ printf_f 0 2 user ++ "s Sys=" ++ printf_f 0 2 system
  ++ "s Real=" ++ printf_f 0 2 real ++ "s".

(** The runs of the constructor. *)
Inductive constructor_run (tracer : option GCTracer) : t -> trace -> Prop :=
| constructor_inactive asked :
    asked = match tracer with
            | Some tr => [EvShouldReport tr false]
            | None => []
            end ->
    constructor_run tracer
      {| _active := false; _starting_user_time := 0;
         _starting_system_time := 0; _starting_real_time := 0;
         _tracer := tracer |}
      (EvLogIsEnabled false :: asked)
| constructor_read asked real user system :
    asked = [EvLogIsEnabled true]
    \/ (exists tr, tracer = Some tr
                   /\ asked = [EvLogIsEnabled false; EvShouldReport tr true]) ->
    constructor_run tracer
      {| _active := true; _starting_user_time := user;
         _starting_system_time := system; _starting_real_time := real;
         _tracer := tracer |}
      (asked ++ [EvGetTimesSecs true real user system])%list
| constructor_read_failed asked real user system :
    asked = [EvLogIsEnabled true]
    \/ (exists tr, tracer = Some tr
                   /\ asked = [EvLogIsEnabled false; EvShouldReport tr true]) ->
    constructor_run tracer
      {| _active := false; _starting_user_time := user;
         _starting_system_time := system; _starting_real_time := real;
         _tracer := tracer |}
      (asked ++ [EvGetTimesSecs false real user system;
                 EvLog warning_gc_cpu invalid_result])%list.

End SamplerRuns.

(** ** Further readings of a trace *)

Definition is_malloc (ev : event) : bool :=
  match ev with EvMalloc _ _ => true | _ => false end.

(** A [malloc] that returned a buffer. *)
Definition is_allocated (ev : event) : bool :=
  match ev with EvMalloc _ ok => ok | _ => false end.

Definition is_free (ev : event) : bool :=
  match ev with EvFree => true | _ => false end.

(** A table query (mode 3) that returned 0. *)
Definition is_table_read (ev : event) : bool :=
  match ev with
  | EvFaultyPageIndex m _ r => (m =? 3) && (r =? 0)
  | _ => false
  end.

Definition is_any_log (ev : event) : bool :=
  match ev with EvLog _ _ => true | _ => false end.

Definition is_report (ev : event) : bool :=
  match ev with EvReport _ _ _ _ => true | _ => false end.

(** * Properties *)

(** ** Strings and numbers *)

Lemma append_assoc (a b c : string) : ((a ++ b) ++ c = a ++ (b ++ c))%string.
Proof.
  induction a as [|x a IH]; simpl; [reflexivity | now rewrite IH].
Qed.

Lemma append_empty_r (a : string) : (a ++ "" = a)%string.
Proof.
  induction a as [|x a IH]; simpl; [reflexivity | now rewrite IH].
Qed.

Lemma length_append (a b : string) :
  String.length (a ++ b) = (String.length a + String.length b)%nat.
Proof.
  induction a as [|x a IH]; simpl; [reflexivity | now rewrite IH].
Qed.

Lemma all_digits_append (a b : string) :
  all_digits (a ++ b) = all_digits a && all_digits b.
Proof.
  induction a as [|x a IH]; simpl; [reflexivity|].
  now rewrite IH, andb_assoc.
Qed.

Lemma is_digit_digit_char (d : Z) : is_digit (digit_char d) = true.
Proof.
  unfold is_digit, digit_char.
  assert (Hd : 0 <= d mod 10 < 10) by (apply Z.mod_pos_bound; lia).
  rewrite nat_ascii_embedding by lia.
  apply andb_true_iff; split; apply Nat.leb_le; lia.
Qed.

Lemma low_digits_length (n : nat) (q : Z) : String.length (low_digits n q) = n.
Proof.
  revert q; induction n as [|n IH]; intros q; simpl; [reflexivity|].
  rewrite length_append, IH; simpl; lia.
Qed.

Lemma low_digits_all_digits (n : nat) (q : Z) :
  all_digits (low_digits n q) = true.
Proof.
  revert q; induction n as [|n IH]; intros q; cbn [low_digits]; [reflexivity|].
  rewrite all_digits_append, IH. cbn [all_digits andb].
  now rewrite is_digit_digit_char.
Qed.

(** A finite [double] printed with ["%.3f"] has a point followed by three
    digits. *)
Lemma printf_f_three_decimals (d : float) :
  is_finite d = true ->
  exists whole frac,
    printf_f 0 3 d = (whole ++ "." ++ frac)%string
    /\ String.length frac = 3%nat /\ all_digits frac = true.
Proof.
  unfold is_finite, printf_f.
  destruct (Prim2SF d) as [neg| |  |neg m e]; try discriminate; intros _.
  - exists ((if neg then "-" else "")
            ++ NilZero.string_of_uint
                 (N.to_uint (Z.to_N (0 / 10 ^ Z.of_nat 3))))%string,
           (low_digits 3 0).
    split; [|split].
    + unfold fixed_point. cbn [Nat.sub spaces]. now rewrite append_assoc.
    + apply low_digits_length.
    + apply low_digits_all_digits.
  - exists ((if neg then "-" else "")
            ++ NilZero.string_of_uint
                 (N.to_uint
                    (Z.to_N (scale_decimal 3 m e / 10 ^ Z.of_nat 3))))%string,
           (low_digits 3 (scale_decimal 3 m e)).
    split; [|split].
    + unfold fixed_point. cbn [Nat.sub spaces]. now rewrite append_assoc.
    + apply low_digits_length.
    + apply low_digits_all_digits.
Qed.

Lemma jlong_small (z : Z) : - 2 ^ 63 <= z < 2 ^ 63 -> jlong z = z.
Proof.
  intros Hz. unfold jlong.
  rewrite Z.mod_small by lia. lia.
Qed.

Lemma size_t_small (z : Z) : 0 <= z <= SIZE_MAX -> size_t z = z.
Proof.
  unfold size_t, SIZE_MAX. intros Hz. apply Z.mod_small. lia.
Qed.

Lemma size_t_range (z : Z) : 0 <= size_t z <= SIZE_MAX.
Proof.
  unfold size_t, SIZE_MAX.
  assert (H : 0 <= z mod 2 ^ 64 < 2 ^ 64) by (apply Z.mod_pos_bound; lia).
  lia.
Qed.

Lemma unsigned_int_range (z : Z) : 0 <= unsigned_int z < 2 ^ 32.
Proof.
  unfold unsigned_int. apply Z.mod_pos_bound. lia.
Qed.

Lemma size_t_minus_one : size_t (-1) = SIZE_MAX.
Proof. reflexivity. Qed.

(** The loop over the table prints its entries in order. *)
Lemma print_entries (indices : nat -> Z) (n from : nat) (out : LogStream) :
  fold_left (fun out i => print out (SIZE_FORMAT (indices i) ++ ","))
    (seq from n) out
  = print out (flatten (index_entries indices from n)).
Proof.
  revert from out; induction n as [|n IH]; intros from out; simpl.
  - unfold print. rewrite append_empty_r. now destruct out.
  - rewrite IH. unfold print; simpl. now rewrite append_assoc.
Qed.

Lemma print_entries_line (indices : nat -> Z) (n from : nat) (out : LogStream) :
  fold_left
    (fun out i =>
       {| ls_target := ls_target out;
          ls_line := ls_line out ++ SIZE_FORMAT (indices i) ++ "," |})
    (seq from n) out
  = {| ls_target := ls_target out;
       ls_line := ls_line out ++ flatten (index_entries indices from n) |}.
Proof. exact (print_entries indices n from out). Qed.

(** Find out which event of a concrete list [Hin] speaks of. *)
Ltac pick_event Hin :=
  cbn [In] in Hin;
  repeat match type of Hin with
         | _ \/ _ => destruct Hin as [Hin|Hin]
         | False => destruct Hin
         | _ = _ => first [discriminate Hin | injection Hin; intros; subst]
         end.

(** ** The runs of [log_start] and [log_end] *)

Section TimerProperties.

Context {RT : Runtime} (w : World).

Import GCTraceTimeLoggerImpl.

Ltac run_io :=
  cbv beta iota zeta delta
    [bind call ret emit cr print_cr fst snd
     Universe_heap_used Universe_heap_capacity syscall_452 syscall_455];
  cbv beta iota zeta delta [print];
  cbn [app fst snd ls_target ls_line];
  rewrite ?print_entries_line;
  cbv beta iota zeta delta [print];
  cbn [app fst snd ls_target ls_line].

Lemma size_t_unsigned_int (z : Z) : size_t (unsigned_int z) = unsigned_int z.
Proof.
  apply size_t_small. pose proof (unsigned_int_range z). unfold SIZE_MAX. lia.
Qed.

Lemma log_start_run (self : t) (start : Z) (h : trace) :
  exists evs,
    snd (log_start w self start h) = EvLog out_start (heading self) :: evs
    /\ start_run self start (fst (log_start w self start h)) evs.
Proof.
  unfold log_start, heading, cause_suffix.
  cbn [_title _gc_cause _log_heap_usage set_start].
  destruct (Cause_eq_dec (_gc_cause self) _no_gc) as [Hc|Hc];
    destruct (_log_heap_usage self) eqn:Husage; run_io;
    cbn [append]; rewrite ?append_empty_r;
    try (eexists; split; [reflexivity | now apply start_plain]).
  all: set (used := size_t (heap_used w _)).
  all: assert (Hused : 0 <= used <= SIZE_MAX) by apply size_t_range.
  all: destruct (sys_get_swap_stats w _) as [r st].
  all: cbn [fst snd]; destruct (r =? 0) eqn:Hr; cbn [fst snd app majflt].
  all: eexists; (split; [reflexivity|]).
  all: try (apply Z.eqb_eq in Hr; subst r; rewrite size_t_unsigned_int;
            apply (start_read self start used
                     {| majflt := unsigned_int (majflt st);
                        majflt_in_region :=
                          unsigned_int (majflt_in_region st) |});
            [assumption | assumption | apply unsigned_int_range]).
  all: apply Z.eqb_neq in Hr; apply start_read_failed; auto.
  all: apply unsigned_int_range.
Qed.

Ltac step :=
  run_io;
  match goal with
  | |- context [if full_pause ?s then _ else _] =>
      destruct (full_pause s) eqn:?
  | |- context [if malloc ?v ?h ?n then _ else _] =>
      destruct (malloc v h n)
  | |- context [sys_get_swap_stats ?v ?h] =>
      destruct (sys_get_swap_stats v h) as [? ?]
  | |- context [sys_faulty_page_index ?v ?h ?m ?b] =>
      destruct (sys_faulty_page_index v h m b) as [? ?]
  | |- context [if ?x =? 0 then _ else _] =>
      destruct (x =? 0) eqn:?
  | |- context [heap_used ?v ?h] => generalize (heap_used v h); intro
  | |- context [heap_capacity ?v ?h] => generalize (heap_capacity v h); intro
  end.

Ltac norm_str :=
  unfold usage_segment, heap_segment, majflt_segment;
  repeat (cbn [append app];
          rewrite ?(append_assoc (_title _)), ?(append_assoc (to_string _)),
            ?(append_assoc (SIZE_FORMAT _)), ?(append_empty_r (_title _))).

Ltac split_run :=
  match goal with
  | |- exists usage seg diag, (EvLog _ _ :: ?d) = _ /\ _ =>
      exists [], ""%string, d
  | |- exists usage seg diag,
         (EvHeapUsed ?u :: EvHeapCapacity ?c :: EvSwapStats ?r ?st
          :: EvLog _ _ :: ?d) = _ /\ usage_run ?self _ _ /\ _ =>
      exists [EvHeapUsed u; EvHeapCapacity c; EvSwapStats r st],
        (usage_segment (_heap_usage_before self) u c (_majflt_before self)
           (if r =? 0 then majflt st else SIZE_MAX)),
        d
  end.

Lemma log_end_run (self : t) (end_ : Z) (h : trace) :
  exists usage seg diag,
    snd (log_end w self end_ h)
    = (usage
       ++ EvLog out_end
            (heading self ++ seg ++ duration_suffix (_start self) end_)
       :: diag)%list
    /\ usage_run self usage seg
    /\ diagnostic_run self diag.
Proof.
  unfold log_end, heading, cause_suffix, duration_suffix, duration_in_ms.
  fold (full_pause self).
  change (Z.of_nat INDICES * 8) with 16384.
  set (ms := printf_f 0 3 _).
  destruct (Cause_eq_dec (_gc_cause self) _no_gc) as [Hc|Hc];
  destruct (_heap_usage_before self =? SIZE_MAX) eqn:Hset; cbn [negb];
    repeat step; run_io; cbn [majflt].
  all: split_run.
  all: refine ((fun Hu Hd He => conj He (conj Hu Hd)) _ _ _).
  all: try match goal with
       | H : (?r =? 0) = _ |- context [EvSwapStats ?r _] => rewrite H
       end.
  all: try (apply usage_unset; now apply Z.eqb_eq).
  all: try (apply diagnostic_off; assumption).
  all: try (apply diagnostic_no_memory; assumption).
  all: try (apply diagnostic_query_failed; [assumption | now apply Z.eqb_neq]).
  all: try (match goal with
            | H : (?q =? 0) = true
              |- diagnostic_run _ (_ :: EvFaultyPageIndex 3 _ ?q :: _) =>
                apply Z.eqb_eq in H; subst q
            end;
            cbn [append]; apply diagnostic_table; assumption).
  all: try match goal with
       | H : (?r =? 0) = true |- usage_run _ [_; _; EvSwapStats ?r _] _ =>
           apply Z.eqb_eq in H; subst r;
           apply usage_read;
           [now apply Z.eqb_neq
           | unfold counter_range; cbn [majflt]; apply unsigned_int_range]
       | H : (?r =? 0) = false |- usage_run _ [_; _; EvSwapStats ?r _] _ =>
           apply usage_read_failed;
           [now apply Z.eqb_neq
           | unfold counter_range; cbn [majflt]; apply unsigned_int_range
           | now apply Z.eqb_neq]
       end.
  all: cbn [majflt]; rewrite ?size_t_unsigned_int, ?size_t_minus_one.
  all: norm_str.
  all: reflexivity.
Qed.

Lemma start_run_fields (self self1 : t) (start : Z) (evs : trace) :
  start_run self start self1 evs ->
  _title self1 = _title self /\ _gc_cause self1 = _gc_cause self
  /\ _log_heap_usage self1 = _log_heap_usage self /\ _start self1 = start.
Proof.
  intros H; inversion H; subst; cbn; auto.
Qed.

Lemma log_start_fields (self : t) (start : Z) (h : trace) :
  let self1 := fst (log_start w self start h) in
  heading self1 = heading self /\ full_pause self1 = full_pause self
  /\ _log_heap_usage self1 = _log_heap_usage self /\ _start self1 = start.
Proof.
  destruct (log_start_run self start h) as (evs & _ & Hrun).
  apply start_run_fields in Hrun. destruct Hrun as (Ht & Hc & Hu & Hs).
  cbv zeta. unfold heading, full_pause. rewrite Ht, Hc, Hu. auto.
Qed.

(** The line of [log_end] after a [log_start]. *)
Lemma log_end_after_start (self : t) (start end_ : Z) (h0 h1 : trace) :
  let self1 := fst (log_start w self start h0) in
  exists usage seg diag,
    snd (log_end w self1 end_ h1)
    = (usage
       ++ EvLog out_end (heading self ++ seg ++ duration_suffix start end_)
       :: diag)%list
    /\ usage_run self1 usage seg
    /\ diagnostic_run self1 diag.
Proof.
  cbv zeta.
  destruct (log_start_fields self start h0) as (Hh & _ & _ & Hs).
  destruct (log_end_run (fst (log_start w self start h0)) end_ h1)
    as (usage & seg & diag & Hev & Hu & Hd).
  rewrite Hh, Hs in Hev. now exists usage, seg, diag.
Qed.

Lemma usage_run_no_line (self : t) (usage : trace) (seg : string) :
  usage_run self usage seg -> count (is_log out_end) usage = 0%nat.
Proof.
  intros H; inversion H; reflexivity.
Qed.

(** C1: the line [log_end] writes after [log_start] ends with the elapsed
    ticks [end - start] converted to milliseconds, printed with ["%.3f"],
    and ["ms"]; this holds whatever the usage flag and the answers of the
    statistics calls.  A finite duration printed this way has exactly three
    digits after the point.  Ticks are non-negative [jlong] counters. *)
Theorem log_end_duration (self : t) (start end_ : Z) (h0 h1 : trace) :
  0 <= start <= end_ -> end_ < 2 ^ 63 ->
  let self1 := fst (log_start w self start h0) in
  let ms := counter_to_millis (end_ - start) in
  (exists before seg after,
     snd (log_end w self1 end_ h1)
     = (before
        ++ EvLog out_end
             (heading self ++ seg ++ " " ++ printf_f 0 3 ms ++ "ms")
        :: after)%list
     /\ count (is_log out_end) before = 0%nat)
  /\ (is_finite ms = true ->
      exists whole frac,
        printf_f 0 3 ms = (whole ++ "." ++ frac)%string
        /\ String.length frac = 3%nat /\ all_digits frac = true).
Proof.
  intros Hticks Hend. cbv zeta. split.
  - destruct (log_end_after_start self start end_ h0 h1)
      as (usage & seg & diag & Hev & Hu & _).
    exists usage, seg, diag. split.
    + rewrite Hev. unfold duration_suffix, duration_in_ms.
      rewrite jlong_small by lia. reflexivity.
    + eapply usage_run_no_line; eassumption.
  - apply printf_f_three_decimals.
Qed.

Lemma size_format_size_max : SIZE_FORMAT SIZE_MAX = "18446744073709551615".
Proof. reflexivity. Qed.

Lemma start_run_counters (self self1 : t) (start : Z) (evs : trace) r st :
  start_run self start self1 evs ->
  In (EvSwapStats r st) evs ->
  evs = [EvHeapUsed (_heap_usage_before self1); EvSwapStats r st]
  /\ counter_range st
  /\ (r = 0 -> _majflt_before self1 = majflt st)
  /\ (r <> 0 -> _majflt_before self1 = _majflt_before self).
Proof.
  intros Hrun Hin.
  inversion Hrun; subst; pick_event Hin;
    cbn; repeat split; auto; intros; try congruence;
    unfold counter_range in *; lia.
Qed.

Lemma usage_run_counters (self : t) (usage : trace) (seg : string) r st :
  usage_run self usage seg ->
  In (EvSwapStats r st) usage ->
  exists used capacity,
    usage = [EvHeapUsed used; EvHeapCapacity capacity; EvSwapStats r st]
    /\ counter_range st
    /\ (r = 0 ->
        seg = usage_segment (_heap_usage_before self) used capacity
                (_majflt_before self) (majflt st))
    /\ (r <> 0 ->
        seg = usage_segment (_heap_usage_before self) used capacity
                (_majflt_before self) SIZE_MAX).
Proof.
  intros Hrun Hin.
  inversion Hrun; subst; pick_event Hin;
    eexists; eexists; (split; [reflexivity|]); repeat split; intros; auto;
    try congruence; unfold counter_range in *; lia.
Qed.

Lemma diagnostic_run_no_counters (self : t) (diag : trace) r st :
  diagnostic_run self diag -> ~ In (EvSwapStats r st) diag.
Proof.
  intros H Hin; inversion H; subst; cbn in Hin;
    repeat destruct Hin as [Hin|Hin]; try discriminate; assumption.
Qed.

(** The events of [log_end] that read the fault counter are among those
    before its line. *)
Lemma in_end_counters (usage diag : trace) (self : t) (line : string) r st :
  diagnostic_run self diag ->
  In (EvSwapStats r st) (usage ++ EvLog out_end line :: diag) ->
  In (EvSwapStats r st) usage.
Proof.
  intros Hd Hin. apply in_app_or in Hin. destruct Hin as [Hin|Hin]; auto.
  destruct Hin as [Hin|Hin]; [discriminate|].
  now apply diagnostic_run_no_counters with (r := r) (st := st) in Hd.
Qed.

(** C2: with usage tracking on, [log_start] reads the fault counter once;
    when that read fails the fault count before keeps the value it had, and
    the event goes on.  When the read of [log_end] fails, the line shows
    [SIZE_MAX] (18446744073709551615) as the count after, which is not zero
    and is above every value a read delivers, and the line still ends with
    the duration. *)
Theorem failed_fault_counter_reads (self : t) (start end_ : Z)
    (h0 h1 : trace) :
  _log_heap_usage self = true ->
  let self1 := fst (log_start w self start h0) in
  let ev1 := snd (log_start w self start h0) in
  let ev2 := snd (log_end w self1 end_ h1) in
  count is_swap_stats ev1 = 1%nat
  /\ (forall r st,
        In (EvSwapStats r st) ev1 -> r <> 0 ->
        _majflt_before self1 = _majflt_before self)
  /\ (forall r st,
        In (EvSwapStats r st) ev2 -> r <> 0 ->
        exists used capacity,
          In (EvLog out_end
                (heading self
                 ++ heap_segment (_heap_usage_before self1) used capacity
                 ++ majflt_segment (_majflt_before self1) SIZE_MAX
                 ++ duration_suffix start end_))
             ev2)
  /\ SIZE_FORMAT SIZE_MAX = "18446744073709551615"
  /\ (forall r st,
        In (EvSwapStats r st) (ev1 ++ ev2) -> 0 <= majflt st < SIZE_MAX).
Proof.
  intros Hflag. cbv zeta.
  destruct (log_start_run self start h0) as (evs & Hev1 & Hrun).
  destruct (log_end_after_start self start end_ h0 h1)
    as (usage & seg & diag & Hev2 & Hu & Hd).
  cbv zeta in Hev2. rewrite Hev1, Hev2.
  split; [|split; [|split; [|split]]].
  - inversion Hrun; subst; try reflexivity. congruence.
  - intros r st [Hin|Hin] Hr; [discriminate|].
    now apply (start_run_counters _ _ _ _ _ _ Hrun Hin).
  - intros r st Hin Hr.
    apply in_end_counters with (self := fst (log_start w self start h0)) in Hin;
      [|assumption].
    destruct (usage_run_counters _ _ _ _ _ Hu Hin)
      as (used & capacity & Husage & _ & _ & Hseg).
    exists used, capacity.
    apply in_or_app; right; left.
    rewrite (Hseg Hr). unfold usage_segment.
    now rewrite append_assoc.
  - apply size_format_size_max.
  - intros r st Hin.
    assert (Hrange : counter_range st -> 0 <= majflt st < SIZE_MAX).
    { unfold counter_range, SIZE_MAX. lia. }
    apply Hrange.
    apply in_app_or in Hin. destruct Hin as [[Hin|Hin]|Hin]; [discriminate| |].
    + now apply (start_run_counters _ _ _ _ _ _ Hrun Hin).
    + apply in_end_counters with (self := fst (log_start w self start h0))
        in Hin; [|assumption].
      destruct (usage_run_counters _ _ _ _ _ Hu Hin)
        as (used & capacity & _ & Hst & _).
      exact Hst.
Qed.

(** C7: with usage tracking on, when the read of [log_start] and the read
    of [log_end] both succeed, the line of [log_end] shows the count read
    at start and the count read at end, as
    ["majflt(<before>-><after>)"]. *)
Theorem fault_counts_logged (self : t) (start end_ : Z) (h0 h1 : trace)
    (st0 st1 : swap_stats) :
  _log_heap_usage self = true ->
  let self1 := fst (log_start w self start h0) in
  let ev1 := snd (log_start w self start h0) in
  let ev2 := snd (log_end w self1 end_ h1) in
  In (EvSwapStats 0 st0) ev1 ->
  In (EvSwapStats 0 st1) ev2 ->
  (exists used capacity,
     In (EvLog out_end
           (heading self
            ++ heap_segment (_heap_usage_before self1) used capacity
            ++ majflt_segment (majflt st0) (majflt st1)
            ++ duration_suffix start end_))
        ev2)
  /\ majflt_segment (majflt st0) (majflt st1)
     = ("majflt(" ++ SIZE_FORMAT (majflt st0) ++ "->"
        ++ SIZE_FORMAT (majflt st1) ++ ")")%string
  /\ size_t (majflt st0) = majflt st0
  /\ size_t (majflt st1) = majflt st1.
Proof.
  intros Hflag. cbv zeta.
  destruct (log_start_run self start h0) as (evs & Hev1 & Hrun).
  destruct (log_end_after_start self start end_ h0 h1)
    as (usage & seg & diag & Hev2 & Hu & Hd).
  cbv zeta in Hev2. rewrite Hev1, Hev2.
  intros [Hin0|Hin0] Hin1; [discriminate|].
  apply in_end_counters with (self := fst (log_start w self start h0)) in Hin1;
    [|assumption].
  destruct (start_run_counters _ _ _ _ _ _ Hrun Hin0) as (_ & Hst0 & Hb & _).
  destruct (usage_run_counters _ _ _ _ _ Hu Hin1)
    as (used & capacity & _ & Hst1 & Hseg & _).
  assert (Hsize : forall st,
             counter_range st -> size_t (majflt st) = majflt st).
  { intros st Hst. apply size_t_small.
    unfold counter_range, SIZE_MAX in *. lia. }
  split; [|split; [reflexivity | split; now apply Hsize]].
  exists used, capacity.
  apply in_or_app; right; left.
  rewrite (Hseg eq_refl), (Hb eq_refl). unfold usage_segment.
  now rewrite append_assoc.
Qed.

(** An object whose usage snapshot is unset and whose flag is off writes
    one line and calls nothing. *)
Lemma log_end_plain (self : t) (end_ : Z) (h : trace) :
  _log_heap_usage self = false ->
  _heap_usage_before self = SIZE_MAX ->
  snd (log_end w self end_ h)
  = [EvLog out_end (heading self ++ duration_suffix (_start self) end_)].
Proof.
  intros Hflag Hunset.
  destruct (log_end_run self end_ h) as (usage & seg & diag & Hev & Hu & Hd).
  inversion Hu; subst; try contradiction.
  inversion Hd; subst;
    try match goal with
        | H : full_pause self = true |- _ =>
            unfold full_pause in H; rewrite Hflag in H; discriminate H
        end.
  exact Hev.
Qed.

(** C6: an event created with usage tracking off writes, at its end, the
    title, the cause in parentheses when there is one, and the duration,
    and nothing else; it calls neither the heap nor the kernel. *)
Theorem no_usage_segment_when_disabled (title : string) (cause : Cause)
    (majflt0 start end_ : Z) (h0 h1 : trace) :
  let self := constructor title cause false majflt0 in
  let self1 := fst (log_start w self start h0) in
  snd (log_end w self1 end_ h1)
  = [EvLog out_end
       (title ++ cause_suffix cause ++ duration_suffix start end_)].
Proof.
  cbv zeta.
  set (self := constructor title cause false majflt0).
  destruct (log_start_run self start h0) as (evs & _ & Hrun).
  destruct (log_start_fields self start h0) as (Hh & _ & Hu & Hs).
  rewrite log_end_plain.
  - rewrite Hh, Hs. unfold heading. cbn [constructor self _title _gc_cause].
    now rewrite append_assoc.
  - now rewrite Hu.
  - inversion Hrun; subst; try discriminate. reflexivity.
Qed.

Lemma index_entries_length (indices : nat -> Z) (from n : nat) :
  List.length (index_entries indices from n) = n.
Proof.
  unfold index_entries. now rewrite length_map, length_seq.
Qed.

Lemma diagnostic_run_cases (self : t) (diag : trace) :
  diagnostic_run self diag ->
  (full_pause self = false /\ diag = [])
  \/ (full_pause self = true /\ diagnostic_cases diag).
Proof.
  unfold diagnostic_cases.
  intros H; inversion H; subst; [left; auto | right; split; auto ..].
  - left; eauto.
  - right; left; eauto.
  - right; right; eauto.
Qed.

Lemma usage_run_no_syscall_455 (self : t) (usage : trace) (seg : string) :
  usage_run self usage seg -> count is_syscall_455 usage = 0%nat.
Proof.
  intros H; inversion H; reflexivity.
Qed.

Lemma count_app (p : event -> bool) (a b : trace) :
  count p (a ++ b)%list = (count p a + count p b)%nat.
Proof.
  unfold count. now rewrite filter_app, length_app.
Qed.

Lemma diagnostic_cases_counts (diag : trace) :
  diagnostic_cases diag ->
  exists ok,
    In (EvMalloc 16384 ok) diag
    /\ count (is_faulty_page_index 3) diag = (if ok then 1 else 0)%nat
    /\ count (is_faulty_page_index 2) diag = 1%nat
    /\ exists pre r, diag = (pre ++ [EvFaultyPageIndex 2 None r])%list
                     /\ count is_syscall_455 pre = (if ok then 1 else 0)%nat.
Proof.
  intros [(r & ->)|[(indices & q & r & _ & ->)|(indices & r & ->)]].
  - exists false. cbn [In]. repeat split; auto.
    exists [EvMalloc 16384 false], r. now split.
  - exists true. cbn [In]. repeat split; auto.
    exists [EvMalloc 16384 true; EvFaultyPageIndex 3 (Some indices) q;
            EvFree], r.
    now split.
  - exists true. cbn [In]. repeat split; auto.
    exists [EvMalloc 16384 true; EvFaultyPageIndex 3 (Some indices) 0;
            EvLog out_end (index_line indices); EvFree], r.
    now split.
Qed.

(** C3, amended: at the end of an event with usage tracking on and a title
    containing ["Pause Full"], after the timing line the buffer of 2048
    entries is allocated; when the allocation fails no query is made, when
    it succeeds exactly one query (mode 3) is made, and when that query
    returns 0 one more line lists the 2048 entries, a comma after each.
    In every case the reset (mode 2, no buffer) is called exactly once, as
    the last call, whatever it returns. *)
Theorem full_pause_diagnostic (self : t) (end_ : Z) (h : trace) :
  _log_heap_usage self = true ->
  strstr (_title self) "Pause Full" = true ->
  let ev := snd (log_end w self end_ h) in
  (exists before line diag,
     ev = (before ++ EvLog out_end line :: diag)%list
     /\ count is_syscall_455 before = 0%nat
     /\ diagnostic_cases diag)
  /\ (exists ok,
        In (EvMalloc 16384 ok) ev
        /\ count (is_faulty_page_index 3) ev = (if ok then 1 else 0)%nat)
  /\ count (is_faulty_page_index 2) ev = 1%nat
  /\ (exists pre r, ev = (pre ++ [EvFaultyPageIndex 2 None r])%list)
  /\ (forall indices,
        In (EvFaultyPageIndex 3 (Some indices) 0) ev ->
        In (EvLog out_end (index_line indices)) ev)
  /\ (forall indices, List.length (index_entries indices 0 2048) = 2048%nat).
Proof.
  intros Hflag Htitle. cbv zeta.
  destruct (log_end_run self end_ h) as (usage & seg & diag & Hev & Hu & Hd).
  set (line := (heading self ++ seg ++ duration_suffix (_start self) end_)%string)
    in Hev.
  rewrite Hev.
  destruct (diagnostic_run_cases _ _ Hd) as [[Hoff _]|[_ Hcases]].
  { unfold full_pause in Hoff. rewrite Hflag, Htitle in Hoff. discriminate. }
  destruct (diagnostic_cases_counts _ Hcases)
    as (ok & Hin & Hq & Hr & pre & r & Hlast & _).
  assert (Hnone : forall m, count (is_faulty_page_index m) usage = 0%nat).
  { intros m. inversion Hu; reflexivity. }
  split; [|split; [|split; [|split; [|split]]]].
  - exists usage, line, diag.
    repeat split; auto. eapply usage_run_no_syscall_455; eassumption.
  - exists ok. split.
    + apply in_or_app; right; right; exact Hin.
    + rewrite count_app, Hnone. exact Hq.
  - rewrite count_app, Hnone. exact Hr.
  - exists (usage ++ EvLog out_end line :: pre)%list, r.
    rewrite Hlast, <- app_assoc. reflexivity.
  - intros indices Hin3.
    apply in_or_app; right; right.
    apply in_app_or in Hin3. destruct Hin3 as [Hin3|[Hin3|Hin3]];
      [inversion Hu; subst; pick_event Hin3 | discriminate |].
    destruct Hcases as [(r0 & ->)|[(i0 & q & r0 & Hq0 & ->)|(i0 & r0 & ->)]];
      pick_event Hin3; try contradiction; cbn [In]; auto.
  - intros indices. apply index_entries_length.
Qed.

(** C10: when the allocation of the index buffer fails, no query is made
    and the timing line is the only line, and the reset is still called,
    right after the failed allocation. *)
Theorem allocation_failure_skips_query (self : t) (end_ : Z) (h : trace)
    (bytes : Z) :
  let ev := snd (log_end w self end_ h) in
  In (EvMalloc bytes false) ev ->
  count (is_faulty_page_index 3) ev = 0%nat
  /\ count (is_log out_end) ev = 1%nat
  /\ count (is_faulty_page_index 2) ev = 1%nat
  /\ exists pre r,
       ev = (pre ++ [EvMalloc bytes false; EvFaultyPageIndex 2 None r])%list.
Proof.
  cbv zeta.
  destruct (log_end_run self end_ h) as (usage & seg & diag & Hev & Hu & Hd).
  set (line := (heading self ++ seg ++ duration_suffix (_start self) end_)%string)
    in Hev.
  rewrite Hev. intros Hin.
  assert (Hnone : forall m, count (is_faulty_page_index m) usage = 0%nat).
  { intros m. inversion Hu; reflexivity. }
  apply in_app_or in Hin. destruct Hin as [Hin|[Hin|Hin]];
    [inversion Hu; subst; pick_event Hin | discriminate |].
  inversion Hd; subst; pick_event Hin.
  rewrite !count_app, !Hnone, (usage_run_no_line _ _ _ Hu).
  repeat split; auto.
  exists (usage ++ [EvLog out_end line])%list, r.
  now rewrite <- app_assoc.
Qed.

(** C9, amended: with usage tracking on and a heap that reports [SIZE_MAX]
    bytes in use at the start, the line of [log_end] has no usage and fault
    segment and no statistics call precedes it; the diagnostic block still
    runs when the title contains ["Pause Full"]: the allocation, the query
    when the allocation succeeds, and the reset in every case. *)
Theorem unset_sentinel_gates_segment (self : t) (start end_ : Z)
    (h0 h1 : trace) :
  _log_heap_usage self = true ->
  In (EvHeapUsed SIZE_MAX) (snd (log_start w self start h0)) ->
  let self1 := fst (log_start w self start h0) in
  exists diag,
    snd (log_end w self1 end_ h1)
    = EvLog out_end (heading self ++ duration_suffix start end_) :: diag
    /\ (strstr (_title self) "Pause Full" = true ->
        diagnostic_cases diag
        /\ exists ok,
             In (EvMalloc 16384 ok) diag
             /\ count (is_faulty_page_index 3) diag = (if ok then 1 else 0)%nat
             /\ count (is_faulty_page_index 2) diag = 1%nat)
    /\ (strstr (_title self) "Pause Full" = false -> diag = []).
Proof.
  intros Hflag Hin. cbv zeta.
  destruct (log_start_run self start h0) as (evs & Hev1 & Hrun).
  destruct (log_start_fields self start h0) as (_ & Hfull & _ & _).
  destruct (log_end_after_start self start end_ h0 h1)
    as (usage & seg & diag & Hev2 & Hu & Hd).
  cbv zeta in Hev2, Hfull. rewrite Hev1 in Hin.
  destruct Hin as [Hin|Hin]; [discriminate|].
  assert (Hunset :
            _heap_usage_before (fst (log_start w self start h0)) = SIZE_MAX).
  { inversion Hrun; subst; pick_event Hin; reflexivity. }
  inversion Hu; subst; try contradiction.
  exists diag. split; [exact Hev2|].
  unfold full_pause in Hfull at 2. rewrite Hflag in Hfull. cbn [andb] in Hfull.
  destruct (diagnostic_run_cases _ _ Hd) as [[Hoff ->]|[Hon Hcases]];
    rewrite Hfull in *; split; intros Ht; try congruence.
  split; [exact Hcases|].
  destruct (diagnostic_cases_counts _ Hcases) as (ok & H1 & H2 & H3 & _).
  now exists ok.
Qed.

End TimerProperties.

(** ** The sampler *)

Lemma fixed_point_length (prec : nat) (neg : bool) (q : Z) :
  (S (S prec) <= String.length (fixed_point (S prec) neg q))%nat.
Proof.
  unfold fixed_point.
  rewrite !length_append, low_digits_length. cbn [String.length]. lia.
Qed.

(** The field width of ["%3.2f"] never pads: the text has three characters
    at least. *)
Lemma printf_f_width (d : float) : printf_f 3 2 d = printf_f 0 2 d.
Proof.
  unfold printf_f.
  destruct (Prim2SF d) as [neg|neg| |neg m e];
    [now destruct neg | now destruct neg | reflexivity |].
  pose proof (fixed_point_length 1 neg (scale_decimal 2 m e)) as Hlen.
  replace (3 - String.length (fixed_point 2 neg (scale_decimal 2 m e)))%nat
    with 0%nat by lia.
  reflexivity.
Qed.

Section SamplerProperties.

Context (w : World).

Import GCTraceCPUTime.

Ltac run_sampler :=
  cbv beta iota zeta delta [bind call ret emit fst snd getTimesSecs];
  cbn [app fst snd _active _tracer _starting_user_time
       _starting_system_time _starting_real_time].

Lemma constructor_runs (tracer : option GCTracer) (h : trace) :
  constructor_run tracer
    (fst (constructor w tracer h)) (snd (constructor w tracer h)).
Proof.
  unfold constructor.
  run_sampler.
  destruct (log_is_enabled_info_gc_cpu w h) eqn:Hlog; run_sampler.
  - destruct (os_getTimesSecs w _) as [valid [[real user] system]].
    destruct valid; run_sampler.
    + apply (constructor_read tracer [EvLogIsEnabled true]). now left.
    + apply (constructor_read_failed tracer [EvLogIsEnabled true]). now left.
  - destruct tracer as [tr|]; run_sampler.
    + destruct (tracer_should_report_cpu_time_event w _ tr) eqn:Hask;
        run_sampler.
      * destruct (os_getTimesSecs w _) as [valid [[real user] system]].
        destruct valid; run_sampler.
        -- apply (constructor_read (Some tr)
                    [EvLogIsEnabled false; EvShouldReport tr true]).
           right; eauto.
        -- apply (constructor_read_failed (Some tr)
                    [EvLogIsEnabled false; EvShouldReport tr true]).
           right; eauto.
      * now apply (constructor_inactive (Some tr)).
    + now apply (constructor_inactive None).
Qed.

Lemma destructor_inactive (self : t) (h : trace) :
  _active self = false -> destructor w self h = (tt, []).
Proof.
  intros Hoff. unfold destructor. rewrite Hoff. reflexivity.
Qed.

Lemma destructor_active (self : t) (h : trace) :
  _active self = true ->
  exists valid real user system,
    snd (destructor w self h)
    = EvGetTimesSecs valid real user system
      :: (if valid then
            EvLog info_gc_cpu
              (cpu_time_line (user - _starting_user_time self)
                 (system - _starting_system_time self)
                 (real - _starting_real_time self))
            :: match _tracer self with
               | Some tr =>
                   [EvReport tr (user - _starting_user_time self)
                      (system - _starting_system_time self)
                      (real - _starting_real_time self)]
               | None => []
               end
          else [EvLog warning_gc_cpu invalid_result]).
Proof.
  intros Hon. unfold destructor, cpu_time_line. rewrite Hon.
  run_sampler.
  destruct (os_getTimesSecs w h) as [valid [[real user] system]].
  exists valid, real, user, system.
  destruct valid; run_sampler; [|reflexivity].
  rewrite !printf_f_width.
  destruct (_tracer self); reflexivity.
Qed.

Lemma constructor_run_times (tracer : option GCTracer) (self : t) (evs : trace)
    valid real user system :
  constructor_run tracer self evs ->
  In (EvGetTimesSecs valid real user system) evs ->
  _active self = valid
  /\ _starting_real_time self = real
  /\ _starting_user_time self = user
  /\ _starting_system_time self = system
  /\ _tracer self = tracer
  /\ exists asked,
       count is_get_times asked = 0%nat
       /\ evs = (asked
                 ++ EvGetTimesSecs valid real user system
                 :: (if valid then []
                     else [EvLog warning_gc_cpu invalid_result]))%list.
Proof.
  intros Hrun Hin.
  inversion Hrun as [asked Hasked|asked r u s Hasked|asked r u s Hasked];
    subst evs.
  - subst asked. destruct tracer; pick_event Hin.
  - apply in_app_or in Hin.
    destruct Hin as [Hin|Hin];
      [destruct Hasked as [->|(tr & -> & ->)]; pick_event Hin|].
    pick_event Hin. cbn. repeat split; auto.
    exists asked. split; [|reflexivity].
    destruct Hasked as [->|(tr & _ & ->)]; reflexivity.
  - apply in_app_or in Hin.
    destruct Hin as [Hin|Hin];
      [destruct Hasked as [->|(tr & -> & ->)]; pick_event Hin|].
    pick_event Hin. cbn. repeat split; auto.
    exists asked. split; [|reflexivity].
    destruct Hasked as [->|(tr & _ & ->)]; reflexivity.
Qed.

(** C4: when the read of the CPU times in the constructor is invalid, the
    warning is logged right after it, [_active] is false from then on, and
    the destructor, the only other operation, does nothing at all: no
    line, no read of the times, no report to the tracer. *)
Theorem invalid_start_read_deactivates (tracer : option GCTracer)
    (h0 : trace) (real user system : float) :
  let self := fst (constructor w tracer h0) in
  let ev1 := snd (constructor w tracer h0) in
  In (EvGetTimesSecs false real user system) ev1 ->
  _active self = false
  /\ (exists asked,
        ev1 = (asked ++ [EvGetTimesSecs false real user system;
                         EvLog warning_gc_cpu invalid_result])%list
        /\ count is_get_times asked = 0%nat)
  /\ (forall h1, destructor w self h1 = (tt, [])).
Proof.
  cbv zeta. intros Hin.
  pose proof (constructor_runs tracer h0) as Hrun.
  destruct (constructor_run_times _ _ _ _ _ _ _ Hrun Hin)
    as (Hactive & _ & _ & _ & _ & asked & Hnone & Hev).
  split; [exact Hactive|]. split.
  - exists asked. now split.
  - intros h1. now apply destructor_inactive.
Qed.

(** C5: when the read of the constructor and the read of the destructor
    are both valid, the destructor logs one line
    ["User=%.2fs Sys=%.2fs Real=%.2fs"] with the differences end - start of
    the user, system and real times, each taken on its own, and then hands
    the same three differences to the tracer when there is one.  Nothing
    else happens. *)
Theorem cpu_time_deltas (tracer : option GCTracer) (h0 h1 : trace)
    (r0 u0 s0 r1 u1 s1 : float) :
  let self := fst (constructor w tracer h0) in
  let ev1 := snd (constructor w tracer h0) in
  let ev2 := snd (destructor w self h1) in
  In (EvGetTimesSecs true r0 u0 s0) ev1 ->
  In (EvGetTimesSecs true r1 u1 s1) ev2 ->
  ev2
  = EvGetTimesSecs true r1 u1 s1
    :: EvLog info_gc_cpu
         ("User=" ++ printf_f 0 2 (u1 - u0)%float
          ++ "s Sys=" ++ printf_f 0 2 (s1 - s0)%float
          ++ "s Real=" ++ printf_f 0 2 (r1 - r0)%float ++ "s")
    :: match tracer with
       | Some tr => [EvReport tr (u1 - u0) (s1 - s0) (r1 - r0)]
       | None => []
       end.
Proof.
  cbv zeta. intros Hin0 Hin1.
  pose proof (constructor_runs tracer h0) as Hrun.
  destruct (constructor_run_times _ _ _ _ _ _ _ Hrun Hin0)
    as (Hactive & Hr & Hu & Hs & Ht & _).
  destruct (destructor_active _ h1 Hactive)
    as (valid & real & user & system & Hev).
  rewrite Hev in Hin1 |- *. rewrite Hr, Hu, Hs, Ht in *.
  destruct valid.
  - destruct Hin1 as [Hin1|Hin1].
    + injection Hin1 as -> -> ->. reflexivity.
    + destruct tracer; pick_event Hin1.
  - pick_event Hin1.
Qed.

(** C8, amended: the constructor asks a tracer whether it wants CPU-time
    events only when [log_is_enabled(Info, gc, cpu)] is false, and then
    once; when logging is enabled the tracer is not asked.  The destructor
    never asks. *)
Theorem tracer_asked_unless_logging (tr : GCTracer) (h : trace) :
  count is_should_report (snd (constructor w (Some tr) h))
  = (if log_is_enabled_info_gc_cpu w h then 0 else 1)%nat
  /\ forall self h1,
       count is_should_report (snd (destructor w self h1)) = 0%nat.
Proof.
  split.
  - unfold constructor. run_sampler.
    destruct (log_is_enabled_info_gc_cpu w h); run_sampler.
    + destruct (os_getTimesSecs w _) as [valid [[real user] system]].
      destruct valid; reflexivity.
    + destruct (tracer_should_report_cpu_time_event w _ tr); run_sampler;
        [|reflexivity].
      destruct (os_getTimesSecs w _) as [valid [[real user] system]].
      destruct valid; reflexivity.
  - intros self h1.
    destruct (_active self) eqn:Hactive.
    + destruct (destructor_active self h1 Hactive)
        as (valid & real & user & system & ->).
      destruct valid; [destruct (_tracer self)|]; reflexivity.
    + now rewrite destructor_inactive.
Qed.

End SamplerProperties.

(** ** Scenarios *)

Section Scenarios.

Import GCTraceTimeLoggerImpl Demo.

(** ["Pause Young"], 100 MB before, 60 MB after, 512 MB capacity, faults
    10 and 12, 4.256 ms. *)
Example pause_young_line :
  run_event calm pause_young 1000 4257000
  = ([EvLog out_start "Pause Young"; EvHeapUsed (100 * M);
      EvSwapStats 0 {| majflt := 10; majflt_in_region := 0 |}],
     [EvHeapUsed (60 * M); EvHeapCapacity (512 * M);
      EvSwapStats 0 {| majflt := 12; majflt_in_region := 0 |};
      EvLog out_end "Pause Young 100M->60M(512M) majflt(10->12) 4.256ms"]).
Proof. reflexivity. Qed.

(** The fault counter fails at both ends. *)
Example pause_young_without_counter :
  snd (run_event no_swap_stats pause_young 1000 4257000)
  = [EvHeapUsed (60 * M); EvHeapCapacity (512 * M);
     EvSwapStats (-1) {| majflt := 7; majflt_in_region := 7 |};
     EvLog out_end
       "Pause Young 100M->60M(512M) majflt(0->18446744073709551615) 4.256ms"].
Proof. reflexivity. Qed.

(** Usage tracking off. *)
Example pause_quiet_lines :
  run_event calm pause_quiet 1000 4257000
  = ([EvLog out_start "Pause Full (Allocation Failure)"],
     [EvLog out_end "Pause Full (Allocation Failure) 4.256ms"]).
Proof. reflexivity. Qed.

(** ["Pause Full"] with a table that cannot be read. *)
Example pause_full_without_table :
  snd (run_event no_table pause_full 1000 4257000)
  = [EvHeapUsed (60 * M); EvHeapCapacity (512 * M);
     EvSwapStats 0 {| majflt := 12; majflt_in_region := 0 |};
     EvLog out_end
       "Pause Full (System.gc()) 100M->60M(512M) majflt(10->12) 4.256ms";
     EvMalloc 16384 true; EvFaultyPageIndex 3 (Some (fun _ => 0)) (-1);
     EvFree; EvFaultyPageIndex 2 None 0].
Proof. reflexivity. Qed.

(** ["Pause Full"] with the table [0, 1, ..., 2047]. *)
Example pause_full_table :
  exists rest,
    filter (is_log out_end) (snd (run_event calm pause_full 1000 4257000))
    = [EvLog out_end
         "Pause Full (System.gc()) 100M->60M(512M) majflt(10->12) 4.256ms";
       EvLog out_end ("faulty page index: 0,1,2,3,4,5,6,7,8,9,10," ++ rest)]
    /\ Z.of_nat (String.length rest) = 9107.
Proof.
  eexists. split; [vm_compute; reflexivity | vm_compute; reflexivity].
Qed.

(** A sampler with a tracer, and one without a tracer and without logging. *)
Example sampler_lines :
  Demo.run_sampler calm (Some 1%nat)
  = ([EvLogIsEnabled false; EvShouldReport 1%nat true;
      EvGetTimesSecs true 0 0 0],
     [EvGetTimesSecs true 1.5 0.25 0.125;
      EvLog info_gc_cpu "User=0.25s Sys=0.12s Real=1.50s";
      EvReport 1%nat 0.25 0.125 1.5])
  /\ Demo.run_sampler calm None = ([EvLogIsEnabled false], []).
Proof. split; reflexivity. Qed.

Example printf_f_samples :
  printf_f 0 3 4.25 = "4.250" /\ printf_f 3 2 0.125 = "0.12"
  /\ printf_f 3 2 0.375 = "0.38" /\ printf_f 0 3 (-0) = "-0.000"
  /\ printf_f 3 2 (1 / 0) = "inf" /\ printf_f 0 3 1e22
     = "10000000000000000000000.000".
Proof. repeat split; reflexivity. Qed.

Example strstr_samples :
  strstr "GC Pause Full (x)" "Pause Full" = true
  /\ strstr "Pause Young" "Pause Full" = false
  /\ strstr "" "Pause Full" = false.
Proof. repeat split; reflexivity. Qed.

End Scenarios.

(** ** Instances *)

Section TimerInstances.

Import GCTraceTimeLoggerImpl Demo.

(** C1 at an event of the calm world, 1000 to 4257000 nanosecond ticks. *)
Lemma log_end_duration_witness :
  (exists before seg after,
     snd (log_end calm (fst (log_start calm pause_young 1000 [])) 4257000 [])
     = (before
        ++ EvLog out_end
             (heading pause_young ++ seg ++ " "
              ++ printf_f 0 3 (counter_to_millis (4257000 - 1000)) ++ "ms")
        :: after)%list
     /\ count (is_log out_end) before = 0%nat)
  /\ exists whole frac,
       printf_f 0 3 (counter_to_millis (4257000 - 1000))
       = (whole ++ "." ++ frac)%string
       /\ String.length frac = 3%nat /\ all_digits frac = true.
Proof.
  destruct (log_end_duration calm pause_young 1000 4257000 [] [])
    as [Hline Hdigits]; [lia | lia |].
  split; [exact Hline|].
  apply Hdigits. vm_compute. reflexivity.
Defined.

(** C2 where the fault counter cannot be read: the count before stays as
    it was, the count after is shown as [SIZE_MAX], and the line is
    written. *)
Lemma failed_fault_counter_reads_witness :
  _majflt_before (fst (log_start no_swap_stats pause_young 1000 []))
  = _majflt_before pause_young
  /\ exists used capacity,
       In (EvLog out_end
             (heading pause_young
              ++ heap_segment (100 * M) used capacity
              ++ majflt_segment 0 SIZE_MAX
              ++ duration_suffix 1000 4257000))
          (snd (log_end no_swap_stats
                  (fst (log_start no_swap_stats pause_young 1000 []))
                  4257000 [])).
Proof.
  destruct (failed_fault_counter_reads no_swap_stats pause_young
              1000 4257000 [] [] eq_refl) as (_ & Hstart & Hend & _).
  split.
  - apply (Hstart (-1) {| majflt := 7; majflt_in_region := 7 |}).
    + vm_compute. right; right; left; reflexivity.
    + discriminate.
  - apply (Hend (-1) {| majflt := 7; majflt_in_region := 7 |}).
    + vm_compute. right; right; left; reflexivity.
    + discriminate.
Defined.

(** C7 in the calm world: 10 faults before, 12 after. *)
Lemma fault_counts_logged_witness :
  exists used capacity,
    In (EvLog out_end
          (heading pause_young
           ++ heap_segment (100 * M) used capacity
           ++ majflt_segment 10 12
           ++ duration_suffix 1000 4257000))
       (snd (run_event calm pause_young 1000 4257000)).
Proof.
  refine (proj1
            (fault_counts_logged calm pause_young 1000 4257000 []
               (snd (log_start calm pause_young 1000 []))
               {| majflt := 10; majflt_in_region := 0 |}
               {| majflt := 12; majflt_in_region := 0 |}
               eq_refl _ _)).
  - vm_compute. right; right; left; reflexivity.
  - vm_compute. right; right; left; reflexivity.
Defined.

(** C3, as stated, fails when there is no memory for the buffer: no query
    is made. *)
Lemma one_query_counterexample :
  _log_heap_usage (started no_memory) = true
  /\ strstr (_title (started no_memory)) "Pause Full" = true
  /\ count (is_faulty_page_index 3)
       (snd (log_end no_memory (started no_memory) 4257000 [])) = 0%nat
  /\ count (is_faulty_page_index 3)
       (snd (log_end no_memory (started no_memory) 4257000 [])) <> 1%nat.
Proof.
  vm_compute. repeat split; discriminate.
Qed.

(** C3, amended, in the calm world: one allocation, one query, one reset,
    and the table line. *)
Lemma full_pause_diagnostic_witness :
  (exists ok,
     In (EvMalloc 16384 ok) (snd (log_end calm (started calm) 4257000 []))
     /\ count (is_faulty_page_index 3)
          (snd (log_end calm (started calm) 4257000 []))
        = (if ok then 1 else 0)%nat)
  /\ count (is_faulty_page_index 2)
       (snd (log_end calm (started calm) 4257000 [])) = 1%nat
  /\ In (EvLog out_end (index_line Z.of_nat))
       (snd (log_end calm (started calm) 4257000 [])).
Proof.
  destruct (full_pause_diagnostic calm (started calm) 4257000 []
              eq_refl eq_refl) as (_ & Hquery & Hreset & _ & Hline & _).
  split; [exact Hquery|]. split; [exact Hreset|].
  apply Hline.
  vm_compute. do 5 right. left. reflexivity.
Defined.

(** C10 where [malloc] returns NULL. *)
Lemma allocation_failure_skips_query_witness :
  count (is_faulty_page_index 3)
    (snd (log_end no_memory (started no_memory) 4257000 [])) = 0%nat
  /\ count (is_log out_end)
       (snd (log_end no_memory (started no_memory) 4257000 [])) = 1%nat
  /\ count (is_faulty_page_index 2)
       (snd (log_end no_memory (started no_memory) 4257000 [])) = 1%nat
  /\ exists pre r,
       snd (log_end no_memory (started no_memory) 4257000 [])
       = (pre ++ [EvMalloc 16384 false; EvFaultyPageIndex 2 None r])%list.
Proof.
  apply (allocation_failure_skips_query no_memory (started no_memory)
           4257000 [] 16384).
  vm_compute. do 4 right. left. reflexivity.
Defined.

(** C9, as stated, fails in the same way: the heap reports [SIZE_MAX], the
    segment is left out, and without memory for the buffer the query does
    not run. *)
Lemma sentinel_query_counterexample :
  _log_heap_usage pause_full = true
  /\ In (EvHeapUsed SIZE_MAX)
       (snd (log_start full_heap_no_memory pause_full 1000 []))
  /\ strstr (_title pause_full) "Pause Full" = true
  /\ snd (log_end full_heap_no_memory (started full_heap_no_memory)
            4257000 [])
     = [EvLog out_end "Pause Full (System.gc()) 4.256ms";
        EvMalloc 16384 false; EvFaultyPageIndex 2 None 0]
  /\ count (is_faulty_page_index 3)
       (snd (log_end full_heap_no_memory (started full_heap_no_memory)
               4257000 [])) = 0%nat.
Proof.
  vm_compute. repeat split. right; left; reflexivity.
Qed.

(** C9, amended, where the heap reports [SIZE_MAX] bytes in use. *)
Lemma unset_sentinel_gates_segment_witness :
  exists diag,
    snd (log_end full_heap (started full_heap) 4257000 [])
    = EvLog out_end (heading pause_full ++ duration_suffix 1000 4257000)
      :: diag
    /\ exists ok,
         In (EvMalloc 16384 ok) diag
         /\ count (is_faulty_page_index 3) diag = (if ok then 1 else 0)%nat
         /\ count (is_faulty_page_index 2) diag = 1%nat.
Proof.
  destruct (unset_sentinel_gates_segment full_heap pause_full 1000 4257000
              [] [] eq_refl) as (diag & Hev & Hfull & _).
  - vm_compute. right; left; reflexivity.
  - exists diag. split; [exact Hev|].
    exact (proj2 (Hfull eq_refl)).
Defined.

End TimerInstances.

Section SamplerInstances.

Import GCTraceCPUTime Demo.

(** C4 where the clock cannot be read. *)
Lemma invalid_start_read_deactivates_witness :
  _active (fst (constructor no_clock (Some 1%nat) [])) = false
  /\ (exists asked,
        snd (constructor no_clock (Some 1%nat) [])
        = (asked ++ [EvGetTimesSecs false 0 0 0;
                     EvLog warning_gc_cpu invalid_result])%list
        /\ count is_get_times asked = 0%nat)
  /\ (forall h1,
        destructor no_clock (fst (constructor no_clock (Some 1%nat) [])) h1
        = (tt, [])).
Proof.
  apply (invalid_start_read_deactivates no_clock (Some 1%nat) [] 0 0 0).
  vm_compute. do 2 right. left. reflexivity.
Defined.

(** C5 in the calm world: the clock moves by (1.5, 0.25, 0.125). *)
Lemma cpu_time_deltas_witness :
  snd (run_sampler calm (Some 1%nat))
  = [EvGetTimesSecs true 1.5 0.25 0.125;
     EvLog info_gc_cpu
       ("User=" ++ printf_f 0 2 (0.25 - 0)%float
        ++ "s Sys=" ++ printf_f 0 2 (0.125 - 0)%float
        ++ "s Real=" ++ printf_f 0 2 (1.5 - 0)%float ++ "s");
     EvReport 1%nat (0.25 - 0) (0.125 - 0) (1.5 - 0)].
Proof.
  refine (cpu_time_deltas calm (Some 1%nat) []
            (snd (constructor calm (Some 1%nat) []))
            0 0 0 1.5 0.25 0.125 _ _).
  - vm_compute. do 2 right. left. reflexivity.
  - vm_compute. left. reflexivity.
Defined.

(** C8, as stated, fails when CPU-time logging is enabled: the tracer is
    there and is not asked. *)
Lemma tracer_query_counterexample :
  snd (constructor logging_cpu (Some 1%nat) [])
  = [EvLogIsEnabled true; EvGetTimesSecs true 0 0 0]
  /\ count is_should_report (snd (constructor logging_cpu (Some 1%nat) []))
     <> 1%nat.
Proof.
  vm_compute. split; [reflexivity | discriminate].
Qed.

End SamplerInstances.

(** * Further properties *)

(** ** [strstr] *)



(** ** The timer *)

Section TimerFurther.

Context {RT : Runtime} (w : World).

Import GCTraceTimeLoggerImpl.

(** X1: with usage tracking off, [log_start] writes its one line (title
    and cause), stores the start tick and changes nothing else; it reads
    neither the heap nor the fault counter. *)
Theorem log_start_without_usage (self : t) (start : Z) (h : trace) :
  _log_heap_usage self = false ->
  log_start w self start h
  = (set_start self start, [EvLog out_start (heading self)]).
Proof.
  intros Hflag.
  destruct (log_start_run w self start h) as (evs & Hev & Hrun).
  destruct (log_start w self start h) as [self1 ev1]. cbn [fst snd] in *.
  inversion Hrun; subst; try congruence. reflexivity.
Qed.


(** X3: when [log_start] stored a heap usage other than [SIZE_MAX],
    [log_end] reads the usage, the capacity and the fault counter, in this
    order, and then writes the usage at start, the usage now and the
    capacity, each in whole megabytes. *)
Theorem heap_figures_logged (self : t) (start end_ u0 : Z) (h0 h1 : trace) :
  let self1 := fst (log_start w self start h0) in
  In (EvHeapUsed u0) (snd (log_start w self start h0)) ->
  u0 <> SIZE_MAX ->
  exists u1 c r st diag,
    snd (log_end w self1 end_ h1)
    = EvHeapUsed u1 :: EvHeapCapacity c :: EvSwapStats r st
      :: EvLog out_end
           (heading self
            ++ (" " ++ SIZE_FORMAT (u0 / M) ++ "M->" ++ SIZE_FORMAT (u1 / M)
                ++ "M(" ++ SIZE_FORMAT (c / M) ++ "M) ")
            ++ majflt_segment (_majflt_before self1)
                 (if r =? 0 then majflt st else SIZE_MAX)
            ++ duration_suffix start end_)
      :: diag
    /\ count is_heap_used diag = 0%nat.
Proof.
  cbv zeta. intros Hin Hset.
  destruct (log_start_run w self start h0) as (evs & Hev & Hrun).
  destruct (log_end_after_start w self start end_ h0 h1)
    as (usage & seg & diag & Hev2 & Hu & Hd).
  cbv zeta in Hev2. rewrite Hev in Hin.
  destruct Hin as [Hin|Hin]; [discriminate|].
  assert (Hbefore : _heap_usage_before (fst (log_start w self start h0)) = u0).
  { inversion Hrun; subst; pick_event Hin; reflexivity. }
  assert (Hquiet : count is_heap_used diag = 0%nat).
  { inversion Hd; reflexivity. }
  rewrite Hev2.
  inversion Hu as [Hunset|used capacity st Hne Hst|used capacity r st Hne Hst Hr];
    subst usage seg.
  - congruence.
  - exists used, capacity, 0, st, diag. split; [|exact Hquiet].
    rewrite Hbefore. unfold usage_segment, heap_segment. cbn [Z.eqb app].
    now rewrite !append_assoc.
  - exists used, capacity, r, st, diag. split; [|exact Hquiet].
    apply Z.eqb_neq in Hr. rewrite Hr, Hbefore.
    unfold usage_segment, heap_segment. cbn [app].
    now rewrite !append_assoc.
Qed.


(** What the calls before the line never are. *)
Lemma usage_run_quiet (self : t) (usage : trace) (seg : string) :
  usage_run self usage seg ->
  count is_malloc usage = 0%nat /\ count is_allocated usage = 0%nat
  /\ count is_free usage = 0%nat /\ count is_table_read usage = 0%nat
  /\ count is_any_log usage = 0%nat
  /\ forall m, count (is_faulty_page_index m) usage = 0%nat.
Proof.
  intros H; inversion H; repeat split.
Qed.

(** X4: without the usage flag, or with a title that does not contain
    ["Pause Full"], [log_end] allocates nothing and never calls syscall
    455; its line is the last thing it does. *)
Theorem no_diagnostic_without_marker (self : t) (end_ : Z) (h : trace) :
  _log_heap_usage self && strstr (_title self) "Pause Full" = false ->
  let ev := snd (log_end w self end_ h) in
  count is_malloc ev = 0%nat
  /\ count is_syscall_455 ev = 0%nat
  /\ exists before line, ev = (before ++ [EvLog out_end line])%list.
Proof.
  intros Hgate. cbv zeta.
  destruct (log_end_run w self end_ h) as (usage & seg & diag & Hev & Hu & Hd).
  rewrite Hev.
  destruct (diagnostic_run_cases _ _ Hd) as [[_ ->]|[Hon _]];
    [|unfold full_pause in Hon; congruence].
  destruct (usage_run_quiet _ _ _ Hu) as (Hm & _ & _ & _ & _ & _).
  rewrite !count_app, Hm, (usage_run_no_syscall_455 _ _ _ Hu).
  repeat split. eauto.
Qed.

(** X5: [log_end] frees the index buffer exactly when [malloc] returned
    one, whatever the query answers: it allocates at most once, never
    leaks the buffer and never frees a NULL pointer. *)
Theorem index_buffer_freed (self : t) (end_ : Z) (h : trace) :
  let ev := snd (log_end w self end_ h) in
  count is_free ev = count is_allocated ev
  /\ (count is_malloc ev <= 1)%nat.
Proof.
  cbv zeta.
  destruct (log_end_run w self end_ h) as (usage & seg & diag & Hev & Hu & Hd).
  rewrite Hev.
  destruct (usage_run_quiet _ _ _ Hu) as (Hm & Ha & Hf & _ & _ & _).
  rewrite !count_app, Hm, Ha, Hf.
  inversion Hd; subst diag; split; cbn; auto.
Qed.

(** X6: when the table query returns an error, [log_end] writes no table
    line: it frees the buffer and resets the profile, and that is all. *)
Theorem failed_query_no_table (self : t) (end_ q : Z) (h : trace)
    (indices : option (nat -> Z)) :
  let ev := snd (log_end w self end_ h) in
  In (EvFaultyPageIndex 3 indices q) ev ->
  q <> 0 ->
  count (is_log out_end) ev = 1%nat
  /\ exists before r,
       ev = (before ++ [EvFaultyPageIndex 3 indices q; EvFree;
                        EvFaultyPageIndex 2 None r])%list.
Proof.
  cbv zeta. intros Hin Hq.
  destruct (log_end_run w self end_ h) as (usage & seg & diag & Hev & Hu & Hd).
  rewrite Hev in Hin |- *.
  apply in_app_or in Hin. destruct Hin as [Hin|[Hin|Hin]];
    [inversion Hu; subst; pick_event Hin | discriminate |].
  rewrite count_app, (usage_run_no_line _ _ _ Hu).
  inversion Hd; subst diag; pick_event Hin; try contradiction.
  split; [reflexivity|].
  match goal with
  | |- context [EvLog out_end ?l :: EvMalloc ?n true :: _] =>
      exists (usage ++ [EvLog out_end l; EvMalloc n true])%list
  end.
  eexists. rewrite <- app_assoc. reflexivity.
Qed.

(** X7: [log_end] writes to [_out_end] only: the timing line, and one
    more line exactly when a table query returned 0. *)
Theorem log_end_lines (self : t) (end_ : Z) (h : trace) :
  let ev := snd (log_end w self end_ h) in
  count (is_log out_end) ev = (1 + count is_table_read ev)%nat
  /\ (count is_table_read ev <= 1)%nat
  /\ forall target line, In (EvLog target line) ev -> target = out_end.
Proof.
  cbv zeta.
  destruct (log_end_run w self end_ h) as (usage & seg & diag & Hev & Hu & Hd).
  rewrite Hev.
  destruct (usage_run_quiet _ _ _ Hu) as (_ & _ & _ & Ht & _ & _).
  rewrite !count_app, Ht, (usage_run_no_line _ _ _ Hu).
  split; [|split].
  - inversion Hd as [Hoff|r Hon|indices q r Hon Hq|indices r Hon]; subst diag;
      try reflexivity.
    apply Z.eqb_neq in Hq. cbn. unfold count. cbn. rewrite Hq. reflexivity.
  - inversion Hd as [Hoff|r Hon|indices q r Hon Hq|indices r Hon]; subst diag;
      cbn; auto.
    apply Z.eqb_neq in Hq. unfold count. cbn. rewrite Hq. cbn. auto.
  - intros target line Hin.
    apply in_app_or in Hin. destruct Hin as [Hin|[Hin|Hin]].
    + inversion Hu; subst; pick_event Hin.
    + now injection Hin.
    + inversion Hd; subst diag; pick_event Hin; reflexivity.
Qed.


(** X9: [log_end] does not compare the ticks: when the end tick is before
    the start tick it reports the conversion of the negative difference. *)
Theorem end_before_start_not_clamped (self : t) (start end_ : Z)
    (h0 h1 : trace) :
  0 <= end_ < start -> start < 2 ^ 63 ->
  let self1 := fst (log_start w self start h0) in
  end_ - start < 0
  /\ exists before seg after,
       snd (log_end w self1 end_ h1)
       = (before
          ++ EvLog out_end
               (heading self ++ seg ++ " "
                ++ printf_f 0 3 (counter_to_millis (end_ - start)) ++ "ms")
          :: after)%list.
Proof.
  intros Hticks Hstart. cbv zeta. split; [lia|].
  destruct (log_end_after_start w self start end_ h0 h1)
    as (usage & seg & diag & Hev & _ & _).
  exists usage, seg, diag.
  rewrite Hev. unfold duration_suffix, duration_in_ms.
  rewrite jlong_small by lia. reflexivity.
Qed.

(** X15: with usage tracking on, [log_start] writes its line, reads the heap
    usage and then the fault counter, once each.  It always stores the
    usage just read, replaces the fault count only when its read returned
    0, stores the start tick, and leaves title, cause and flag alone. *)
Theorem log_start_with_usage (self : t) (start : Z) (h : trace) :
  _log_heap_usage self = true ->
  exists used r st,
    snd (log_start w self start h)
    = [EvLog out_start (heading self); EvHeapUsed used; EvSwapStats r st]
    /\ 0 <= used <= SIZE_MAX
    /\ fst (log_start w self start h)
       = {| _title := _title self; _gc_cause := _gc_cause self;
            _log_heap_usage := true;
            _heap_usage_before := used;
            _majflt_before :=
              if r =? 0 then majflt st else _majflt_before self;
            _start := start |}.
Proof.
  intros Hflag.
  destruct (log_start_run w self start h) as (evs & Hev & Hrun).
  rewrite Hev.
  inversion Hrun as [Hoff|used st Hon Hused Hst|used r st Hon Hused Hst Hr];
    subst evs; try congruence.
  - exists used, 0, st. repeat split; try apply Hused.
    unfold set_majflt_before, set_heap_usage_before, set_start.
    cbn. now rewrite Hflag.
  - exists used, r, st. repeat split; try apply Hused.
    apply Z.eqb_neq in Hr. rewrite Hr.
    unfold set_heap_usage_before, set_start. cbn. now rewrite Hflag.
Qed.

End TimerFurther.

(** ** The sampler *)

Section SamplerFurther.

Context (w : World).

Import GCTraceCPUTime.

(** X10: when CPU-time logging is off and no tracer asks for the event
    (there is none, or it declines), the sampler is inactive: it never
    reads the clock, logs nothing and reports nothing, at construction and
    at destruction. *)
Theorem unwanted_sampler_silent (tracer : option GCTracer) (h0 : trace) :
  let self := fst (constructor w tracer h0) in
  let ev1 := snd (constructor w tracer h0) in
  In (EvLogIsEnabled false) ev1 ->
  (forall tr, ~ In (EvShouldReport tr true) ev1) ->
  _active self = false
  /\ ev1 = EvLogIsEnabled false
           :: match tracer with
              | Some tr => [EvShouldReport tr false]
              | None => []
              end
  /\ forall h1, destructor w self h1 = (tt, []).
Proof.
  cbv zeta. intros Hoff Hdecline.
  pose proof (constructor_runs w tracer h0) as Hrun.
  destruct (constructor w tracer h0) as [self ev1]. cbn [fst snd] in *.
  inversion Hrun as [asked Hasked|asked r u s Hasked|asked r u s Hasked];
    subst.
  - repeat split.
  - exfalso. destruct Hasked as [->|(tr & -> & ->)].
    + cbn [app] in Hoff. pick_event Hoff.
    + apply (Hdecline tr). cbn [app In]. auto.
  - exfalso. destruct Hasked as [->|(tr & -> & ->)].
    + cbn [app] in Hoff. pick_event Hoff.
    + apply (Hdecline tr). cbn [app In]. auto.
Qed.

(** X11: when the read of the times in the destructor is invalid, the
    destructor logs the warning and does nothing else: no CPU-time line,
    no report to the tracer. *)
Theorem invalid_end_read_warns_only (self : t) (h : trace)
    (real user system : float) :
  In (EvGetTimesSecs false real user system) (snd (destructor w self h)) ->
  snd (destructor w self h)
  = [EvGetTimesSecs false real user system;
     EvLog warning_gc_cpu invalid_result].
Proof.
  intros Hin.
  destruct (_active self) eqn:Hactive.
  - destruct (destructor_active w self h Hactive)
      as (valid & r & u & s & Hev).
    rewrite Hev in Hin |- *.
    destruct valid.
    + destruct Hin as [Hin|Hin]; [discriminate|].
      destruct (_tracer self); pick_event Hin.
    + pick_event Hin. reflexivity.
  - rewrite destructor_inactive in Hin by assumption. destruct Hin.
Qed.

(** X12: a sampler is active after construction exactly when the
    constructor read the times and the read was valid. *)
Theorem active_iff_valid_start_read (tracer : option GCTracer) (h : trace) :
  _active (fst (constructor w tracer h)) = true
  <-> exists real user system,
        In (EvGetTimesSecs true real user system)
           (snd (constructor w tracer h)).
Proof.
  pose proof (constructor_runs w tracer h) as Hrun.
  destruct (constructor w tracer h) as [self ev1]. cbn [fst snd] in *.
  inversion Hrun as [asked Hasked|asked r u s Hasked|asked r u s Hasked];
    subst; cbn [_active].
  - split; [discriminate|].
    intros (r & u & s & Hin). destruct tracer; pick_event Hin.
  - split; [|reflexivity]. intros _. exists r, u, s.
    apply in_or_app; right; left; reflexivity.
  - split; [discriminate|].
    intros (r' & u' & s' & Hin).
    apply in_app_or in Hin. destruct Hin as [Hin|Hin].
    + destruct Hasked as [->|(tr & -> & ->)]; pick_event Hin.
    + pick_event Hin.
Qed.

(** X13: over its whole life, from the constructor to the destructor, a
    sampler reads the times at most twice, writes at most one line (the
    CPU-time line or one warning, never both) and reports to the tracer
    at most once. *)
Theorem sampler_lifetime_budget (tracer : option GCTracer) (h0 h1 : trace) :
  let self := fst (constructor w tracer h0) in
  let ev1 := snd (constructor w tracer h0) in
  let ev2 := snd (destructor w self h1) in
  (count is_get_times ev1 + count is_get_times ev2 <= 2)%nat
  /\ (count is_any_log ev1 + count is_any_log ev2 <= 1)%nat
  /\ (count is_report ev1 + count is_report ev2 <= 1)%nat.
Proof.
  cbv zeta.
  pose proof (constructor_runs w tracer h0) as Hrun.
  destruct (constructor w tracer h0) as [self ev1]. cbn [fst snd] in *.
  inversion Hrun as [asked Hasked|asked r u s Hasked|asked r u s Hasked];
    subst.
  - rewrite destructor_inactive by reflexivity.
    destruct tracer; cbn; lia.
  - destruct (destructor_active w _ h1 (eq_refl : _active
               {| _active := true; _starting_user_time := u;
                  _starting_system_time := s; _starting_real_time := r;
                  _tracer := tracer |} = true))
      as (valid & r1 & u1 & s1 & ->).
    rewrite !count_app.
    destruct Hasked as [->|(tr & -> & ->)]; destruct valid;
      cbn [_tracer]; try destruct tracer; cbn; lia.
  - rewrite destructor_inactive by reflexivity.
    rewrite !count_app.
    destruct Hasked as [->|(tr & -> & ->)]; cbn; lia.
Qed.

(** X14: a report reaches a tracer only at destruction, only the tracer
    given to the constructor, and only right after the CPU-time line with
    the same three values, which follows a valid read. *)
Theorem report_follows_line (tracer : option GCTracer) (h0 h1 : trace)
    (tr : GCTracer) (user system real : float) :
  let self := fst (constructor w tracer h0) in
  let ev1 := snd (constructor w tracer h0) in
  let ev2 := snd (destructor w self h1) in
  In (EvReport tr user system real) (ev1 ++ ev2) ->
  tracer = Some tr
  /\ count is_report ev1 = 0%nat
  /\ exists r1 u1 s1,
       ev2 = [EvGetTimesSecs true r1 u1 s1;
              EvLog info_gc_cpu (cpu_time_line user system real);
              EvReport tr user system real].
Proof.
  cbv zeta. intros Hin.
  pose proof (constructor_runs w tracer h0) as Hrun.
  destruct (constructor w tracer h0) as [self ev1]. cbn [fst snd] in *.
  assert (Hnone : ~ In (EvReport tr user system real) ev1
                  /\ count is_report ev1 = 0%nat /\ _tracer self = tracer).
  { inversion Hrun as [asked Hasked|asked r u s Hasked|asked r u s Hasked];
      subst; (split; [|split; [|reflexivity]]).
    - intros H; destruct tracer; pick_event H.
    - destruct tracer; reflexivity.
    - intros H; apply in_app_or in H; destruct H as [H|H];
        [destruct Hasked as [->|(t0 & -> & ->)]; pick_event H | pick_event H].
    - rewrite count_app. destruct Hasked as [->|(t0 & -> & ->)]; reflexivity.
    - intros H; apply in_app_or in H; destruct H as [H|H];
        [destruct Hasked as [->|(t0 & -> & ->)]; pick_event H | pick_event H].
    - rewrite count_app. destruct Hasked as [->|(t0 & -> & ->)]; reflexivity. }
  destruct Hnone as (Hnot & Hcount & Htracer).
  apply in_app_or in Hin. destruct Hin as [Hin|Hin]; [contradiction|].
  destruct (_active self) eqn:Hactive;
    [|rewrite destructor_inactive in Hin by assumption; destruct Hin].
  destruct (destructor_active w self h1 Hactive)
    as (valid & r1 & u1 & s1 & Hev).
  rewrite Hev in Hin |- *. rewrite Htracer in *.
  destruct valid; [|pick_event Hin].
  destruct Hin as [Hin|[Hin|Hin]]; try discriminate.
  destruct tracer as [t0|]; pick_event Hin.
  repeat split; auto. exists r1, u1, s1. reflexivity.
Qed.

(** X16: the constructor reads the times at most once, and it reads them
    exactly when CPU-time logging is enabled or the tracer it was given
    said it wants the event. *)
Theorem clock_read_iff_wanted (tracer : option GCTracer) (h : trace) :
  let ev1 := snd (constructor w tracer h) in
  (count is_get_times ev1 <= 1)%nat
  /\ (count is_get_times ev1 = 1%nat
      <-> In (EvLogIsEnabled true) ev1
          \/ exists tr, tracer = Some tr /\ In (EvShouldReport tr true) ev1).
Proof.
  cbv zeta.
  pose proof (constructor_runs w tracer h) as Hrun.
  destruct (constructor w tracer h) as [self ev1]. cbn [fst snd] in *.
  inversion Hrun as [asked Hasked|asked r u s Hasked|asked r u s Hasked];
    subst.
  - split; [destruct tracer; cbn; lia|].
    split; [destruct tracer; discriminate|].
    intros [Hin|(tr & -> & Hin)]; [destruct tracer|]; pick_event Hin.
  - rewrite count_app.
    destruct Hasked as [->|(tr & -> & ->)]; (split; [cbn; lia|]);
      (split; [intros _ | reflexivity]).
    + left. cbn [app In]. auto.
    + right. exists tr. cbn [app In]. auto.
  - rewrite count_app.
    destruct Hasked as [->|(tr & -> & ->)]; (split; [cbn; lia|]);
      (split; [intros _ | reflexivity]).
    + left. cbn [app In]. auto.
    + right. exists tr. cbn [app In]. auto.
Qed.

End SamplerFurther.

(** ** Instances of the further properties *)

Section TimerFurtherInstances.

Import GCTraceTimeLoggerImpl Demo.

(** X1 for an event with usage tracking off. *)
Lemma log_start_without_usage_witness :
  log_start calm pause_quiet 1000 []
  = (set_start pause_quiet 1000, [EvLog out_start (heading pause_quiet)]).
Proof.
  apply (log_start_without_usage calm pause_quiet 1000 []). reflexivity.
Defined.

(** X3 in the calm world: 100 MB at the start. *)
Lemma heap_figures_logged_witness :
  exists u1 c r st diag,
    snd (log_end calm pause_young_started 4257000
           (snd (log_start calm pause_young 1000 [])))
    = EvHeapUsed u1 :: EvHeapCapacity c :: EvSwapStats r st
      :: EvLog out_end
           (heading pause_young
            ++ (" " ++ SIZE_FORMAT (100 * M / M) ++ "M->"
                ++ SIZE_FORMAT (u1 / M)
                ++ "M(" ++ SIZE_FORMAT (c / M) ++ "M) ")
            ++ majflt_segment (_majflt_before pause_young_started)
                 (if r =? 0 then majflt st else SIZE_MAX)
            ++ duration_suffix 1000 4257000)
      :: diag
    /\ count is_heap_used diag = 0%nat.
Proof.
  apply (heap_figures_logged calm pause_young 1000 4257000 (100 * M) []
           (snd (log_start calm pause_young 1000 []))).
  - vm_compute. right; left; reflexivity.
  - discriminate.
Defined.

(** X4 for a title without the marker. *)
Lemma no_diagnostic_without_marker_witness :
  count is_malloc (snd (log_end calm pause_young_started 4257000 [])) = 0%nat
  /\ count is_syscall_455
       (snd (log_end calm pause_young_started 4257000 [])) = 0%nat
  /\ exists before line,
       snd (log_end calm pause_young_started 4257000 [])
       = (before ++ [EvLog out_end line])%list.
Proof.
  apply (no_diagnostic_without_marker calm pause_young_started 4257000 []).
  reflexivity.
Defined.

(** X6 where the table cannot be read. *)
Lemma failed_query_no_table_witness :
  count (is_log out_end)
    (snd (log_end no_table (started no_table) 4257000 [])) = 1%nat
  /\ exists before r,
       snd (log_end no_table (started no_table) 4257000 [])
       = (before ++ [EvFaultyPageIndex 3 (Some (fun _ => 0)) (-1); EvFree;
                     EvFaultyPageIndex 2 None r])%list.
Proof.
  apply (failed_query_no_table no_table (started no_table) 4257000 (-1) []
           (Some (fun _ => 0))).
  - vm_compute. do 5 right. left. reflexivity.
  - discriminate.
Defined.


(** X9 with the two ticks exchanged. *)
Lemma end_before_start_not_clamped_witness :
  1000 - 4257000 < 0
  /\ exists before seg after,
       snd (log_end calm (fst (log_start calm pause_young 4257000 []))
              1000 [])
       = (before
          ++ EvLog out_end
               (heading pause_young ++ seg ++ " "
                ++ printf_f 0 3 (counter_to_millis (1000 - 4257000)) ++ "ms")
          :: after)%list.
Proof.
  apply (end_before_start_not_clamped calm pause_young 4257000 1000 [] []);
    lia.
Defined.

(** X15 in the world where the fault counter cannot be read. *)
Lemma log_start_with_usage_witness :
  exists used r st,
    snd (log_start no_swap_stats pause_young 1000 [])
    = [EvLog out_start (heading pause_young); EvHeapUsed used;
       EvSwapStats r st]
    /\ 0 <= used <= SIZE_MAX
    /\ fst (log_start no_swap_stats pause_young 1000 [])
       = {| _title := _title pause_young;
            _gc_cause := _gc_cause pause_young;
            _log_heap_usage := true;
            _heap_usage_before := used;
            _majflt_before :=
              if r =? 0 then majflt st else _majflt_before pause_young;
            _start := 1000 |}.
Proof.
  apply (log_start_with_usage no_swap_stats pause_young 1000 []).
  reflexivity.
Defined.

End TimerFurtherInstances.

Section SamplerFurtherInstances.

Import GCTraceCPUTime Demo.

(** X10 with a tracer that declines. *)
Lemma unwanted_sampler_silent_witness :
  _active (fst (constructor declining (Some 1%nat) [])) = false
  /\ snd (constructor declining (Some 1%nat) [])
     = [EvLogIsEnabled false; EvShouldReport 1%nat false]
  /\ forall h1,
       destructor declining (fst (constructor declining (Some 1%nat) [])) h1
       = (tt, []).
Proof.
  apply (unwanted_sampler_silent declining (Some 1%nat) []).
  - vm_compute. left; reflexivity.
  - intros tr Hin. vm_compute in Hin.
    destruct Hin as [Hin|[Hin|Hin]]; [discriminate | discriminate | exact Hin].
Defined.

(** X11 where the clock fails at the second read. *)
Lemma invalid_end_read_warns_only_witness :
  snd (run_sampler clock_fails_later (Some 1%nat))
  = [EvGetTimesSecs false 0 0 0; EvLog warning_gc_cpu invalid_result].
Proof.
  apply (invalid_end_read_warns_only clock_fails_later
           (fst (constructor clock_fails_later (Some 1%nat) []))
           (snd (constructor clock_fails_later (Some 1%nat) []))
           0 0 0).
  vm_compute. left; reflexivity.
Defined.

(** X14 in the calm world. *)
Lemma report_follows_line_witness :
  Some 1%nat = Some 1%nat
  /\ count is_report (snd (constructor calm (Some 1%nat) [])) = 0%nat
  /\ exists r1 u1 s1,
       snd (run_sampler calm (Some 1%nat))
       = [EvGetTimesSecs true r1 u1 s1;
          EvLog info_gc_cpu (cpu_time_line 0.25 0.125 1.5);
          EvReport 1%nat 0.25 0.125 1.5].
Proof.
  apply (report_follows_line calm (Some 1%nat) []
           (snd (constructor calm (Some 1%nat) [])) 1%nat 0.25 0.125 1.5).
  vm_compute. do 5 right. left. reflexivity.
Defined.

End SamplerFurtherInstances.

(** ** Further scenarios *)

Section FurtherScenarios.

Import GCTraceTimeLoggerImpl Demo.

Example exchanged_ticks_line :
  snd (log_end calm (fst (log_start calm pause_quiet 4257000 [])) 1000 [])
  = [EvLog out_end "Pause Full (Allocation Failure) -4.256ms"].
Proof. reflexivity. Qed.

Example marker_inside_runs :
  filter is_syscall_455 (snd (log_end calm pause_full_inside 4257000 []))
  = [EvFaultyPageIndex 3 (Some Z.of_nat) 0; EvFaultyPageIndex 2 None 0].
Proof. reflexivity. Qed.

Example declining_tracer_run :
  run_sampler declining (Some 1%nat)
  = ([EvLogIsEnabled false; EvShouldReport 1%nat false], []).
Proof. reflexivity. Qed.

End FurtherScenarios.
